(** * Browser session registry ([skyvern/webeye/browser_manager.py])

    A shallow embedding of [BrowserManager]: the process-wide dictionary
    [pages] from task and workflow-run identifiers to [BrowserState] objects,
    the creation and aliasing paths, the teardown paths and the artifact
    readers.

    - Python objects have identity: a [BrowserState] lives in a [heap] and the
      dictionary holds references ([Ref]) to it, so that two keys can share
      one object.
    - [pages] is a Python [dict]: an association list in insertion order,
      each key held once ([values()] is iterated in that order by [close]).
    - A coroutine is a state transformer with three outcomes: it returns,
      it raises, or it stays suspended on an [await] that never completes.
      A call is followed from its first line to its last; what other
      coroutines do to [pages] while it is suspended is not part of the
      model.
    - The browser, Playwright and the other collaborators are a [Driver]:
      for each awaited call it says after how long the call completes, fails
      or that it never does.  [asyncio.timeout] is a deadline on the clock. *)

From Stdlib Require Import Strings.Byte.
From stdpp Require Import base strings list.

Open Scope string_scope.
Open Scope list_scope.
Open Scope nat_scope.

(** ** Data model *)

(** References to [BrowserState] objects, opaque handles of the driver's
    objects, proxy locations and byte strings. *)
Abbreviation Ref := nat (only parsing).
Abbreviation Handle := nat (only parsing).
Abbreviation ProxyLocation := string (only parsing).
Abbreviation bytes := (list byte) (only parsing).

(** Modelled from the spec: [VideoArtifact] is declared in
    [skyvern/webeye/browser_factory.py]; a recording descriptor holds a
    storage path and an optional in-memory payload. *)
Record VideoArtifact := mkVideoArtifact {
  video_path : option string;
  video_data : option bytes
}.

(** Modelled from the spec: [BrowserArtifacts] is declared in
    [skyvern/webeye/browser_factory.py]; paths (or their absence) of the
    network capture and of the trace directory, and the recordings. *)
Record BrowserArtifacts := mkBrowserArtifacts {
  video_artifacts : list VideoArtifact;
  har_path : option string;
  traces_dir : option string
}.

(** The fields [_create_browser_state] passes to the [BrowserState]
    constructor. *)
Record BrowserState := mkBrowserState {
  pw : Handle;
  browser_context : option Handle;
  page : option Handle;
  browser_artifacts : BrowserArtifacts;
  browser_cleanup : option Handle
}.

(** The fields of [Task] and [WorkflowRun] that the manager reads. *)
Record Task := mkTask {
  task_id : string;
  workflow_run_id : option string;
  proxy_location : option ProxyLocation;
  url : option string;
  organization_id : option string
}.

Record WorkflowRun := mkWorkflowRun {
  run_workflow_run_id : string;
  run_proxy_location : option ProxyLocation;
  run_organization_id : option string
}.

Inductive Exn :=
| MissingBrowserState (task : string)
| TimeoutError
| KeyError (key : string)
| IsADirectoryError (path : string)
| FileNotFoundError (path : string)
| DriverError (msg : string)
| InvalidReference (r : Ref).

Inductive DriverCall :=
| PlaywrightStart
| CreateBrowserContext (pw : Handle) (proxy : option ProxyLocation)
    (url task workflow_run organization : option string)
| GetOrCreatePage (bs : Ref) (url : option string) (proxy : option ProxyLocation)
    (task workflow_run organization : option string)
| TracingStop (context : Handle) (path : string)
| BrowserStateClose (bs : Ref) (close_browser_on_completion : option bool).

Inductive Level := Info | Warning.

(** What a run leaves behind: the log lines, and every awaited call together
    with the dictionary as it was when the call was made. *)
Inductive Event :=
| EvLog (level : Level) (msg : string)
| EvAwait (call : DriverCall) (registry : list (string * Ref)).

Record State := mkState {
  pages : list (string * Ref);
  heap : list BrowserState;
  trace : list Event;
  clock : nat
}.

Definition initial : State := mkState [] [] [] 0.

Definition set_pages (p : list (string * Ref)) (st : State) : State :=
  mkState p (heap st) (trace st) (clock st).
Definition set_heap (h : list BrowserState) (st : State) : State :=
  mkState (pages st) h (trace st) (clock st).
Definition add_event (e : Event) (st : State) : State :=
  mkState (pages st) (heap st) (trace st ++ [e]) (clock st).
Definition set_clock (t : nat) (st : State) : State :=
  mkState (pages st) (heap st) (trace st) t.

(** ** The dictionary *)

Fixpoint dict_get (k : string) (d : list (string * Ref)) : option Ref :=
  match d with
  | [] => None
  | (k', v) :: d' => if decide (k = k') then Some v else dict_get k d'
  end.

(** [d[k] = v]: an existing key keeps its place, a new one goes last. *)
Fixpoint dict_set (k : string) (v : Ref) (d : list (string * Ref))
  : list (string * Ref) :=
  match d with
  | [] => [(k, v)]
  | (k', v') :: d' =>
      if decide (k = k') then (k, v) :: d' else (k', v') :: dict_set k v d'
  end.

(** [d.pop(k, None)] leaves no entry for [k]. *)
Fixpoint dict_remove (k : string) (d : list (string * Ref))
  : list (string * Ref) :=
  match d with
  | [] => []
  | (k', v) :: d' =>
      if decide (k = k') then dict_remove k d' else (k', v) :: dict_remove k d'
  end.

Definition dict_values (d : list (string * Ref)) : list Ref := map snd d.

(** The keys under which [r] is registered, and how many they are. *)
Definition keys_of (r : Ref) (d : list (string * Ref)) : list string :=
  map fst (filter (λ kv, kv.2 = r) d).
Definition fan_in (r : Ref) (d : list (string * Ref)) : nat :=
  length (keys_of r d).

(** Python truth of a [str | None]: neither [None] nor empty. *)
Definition truthy (s : option string) : option string :=
  match s with
  | Some s => if decide (s = "") then None else Some s
  | None => None
  end.

(** [k in d] for a [str | None]: [None] is in no dictionary of strings. *)
Definition dict_find (k : option string) (d : list (string * Ref)) : option Ref :=
  match k with
  | Some k => dict_get k d
  | None => None
  end.

(** ** Coroutines *)

Inductive Outcome (A : Type) :=
| Returned (a : A)
| Raised (e : Exn)
| Pending.
Arguments Returned {A} a.
Arguments Raised {A} e.
Arguments Pending {A}.

Definition M (A : Type) : Type := State → Outcome A * State.

#[global] Instance M_ret : MRet M := λ A a st, (Returned a, st).
#[global] Instance M_bind : MBind M := λ A B f m st,
  match m st with
  | (Returned a, st') => f a st'
  | (Raised e, st') => (Raised e, st')
  | (Pending, st') => (Pending, st')
  end.

Definition raise {A} (e : Exn) : M A := λ st, (Raised e, st).
Definition get_pages : M (list (string * Ref)) := λ st, (Returned (pages st), st).
Definition put_pages (p : list (string * Ref)) : M unit :=
  λ st, (Returned tt, set_pages p st).
(** [LOG.info(msg, ...)] and [LOG.warning(msg, ...)]: the message is kept,
    its keyword arguments are not. *)
Definition log (level : Level) (msg : string) : M unit :=
  λ st, (Returned tt, add_event (EvLog level msg) st).

(** [self.pages[k]] *)
Definition pages_getitem (k : string) : M Ref := λ st,
  match dict_get k (pages st) with
  | Some r => (Returned r, st)
  | None => (Raised (KeyError k), st)
  end.
(** [self.pages[k]] for a key that is a [str | None] *)
Definition pages_getitem_opt (k : option string) : M Ref := λ st,
  match dict_find k (pages st) with
  | Some r => (Returned r, st)
  | None => (Raised (KeyError (default "None" k)), st)
  end.
(** [self.pages[k] = r] *)
Definition pages_setitem (k : string) (r : Ref) : M unit := λ st,
  (Returned tt, set_pages (dict_set k r (pages st)) st).
(** [self.pages.pop(k, None)] *)
Definition pages_pop (k : string) : M (option Ref) := λ st,
  (Returned (dict_get k (pages st)), set_pages (dict_remove k (pages st)) st).

Definition deref (r : Ref) : M BrowserState := λ st,
  match heap st !! r with
  | Some bs => (Returned bs, st)
  | None => (Raised (InvalidReference r), st)
  end.
Definition alloc (bs : BrowserState) : M Ref := λ st,
  (Returned (length (heap st)), set_heap (heap st ++ [bs]) st).
Definition update (r : Ref) (f : BrowserState → BrowserState) : M unit := λ st,
  match heap st !! r with
  | Some bs => (Returned tt, set_heap (<[r := f bs]> (heap st)) st)
  | None => (Raised (InvalidReference r), st)
  end.

(** What an awaited call of a collaborator does: it completes after [d]
    units of time with a result, fails after [d] units, or never resumes. *)
Inductive Behaviour (A : Type) :=
| Finishes (d : nat) (a : A)
| Fails (d : nat) (e : Exn)
| Hangs.
Arguments Finishes {A} d a.
Arguments Fails {A} d e.
Arguments Hangs {A}.

(** The collaborators; each answer may depend on everything that happened
    before the call. *)
Record Driver := mkDriver {
  drv_playwright_start : list Event → Behaviour Handle;
  drv_create_browser_context :
    list Event → Handle → option ProxyLocation →
    option string → option string → option string → option string →
    Behaviour (Handle * BrowserArtifacts * option Handle);
  drv_get_or_create_page :
    list Event → Ref → option string → option ProxyLocation →
    option string → option string → option string → Behaviour Handle;
  drv_tracing_stop : list Event → Handle → string → Behaviour unit;
  drv_close : list Event → Ref → option bool → Behaviour unit
}.

(** [t] is before the deadline, if there is one: [asyncio.timeout] cancels
    at the deadline whatever has not resumed by then. *)
Definition in_time (deadline : option nat) (t : nat) : bool :=
  match deadline with
  | Some D => bool_decide (t < D)
  | None => true
  end.

(** [await call]: under a deadline an await that would not resume before
    the deadline is cancelled at the deadline and [TimeoutError] is raised
    in its place;
    without one, a call that never completes leaves the coroutine pending. *)
Definition await {A} (deadline : option nat) (call : DriverCall)
    (b : list Event → Behaviour A) : M A := λ st,
  let st1 := add_event (EvAwait call (pages st)) st in
  let expire := match deadline with
                | Some D => (Raised TimeoutError, set_clock D st1)
                | None => (Pending, st1)
                end in
  match b (trace st) with
  | Finishes d a =>
      if in_time deadline (clock st + d)
      then (Returned a, set_clock (clock st + d) st1) else expire
  | Fails d e =>
      if in_time deadline (clock st + d)
      then (Raised e, set_clock (clock st + d) st1) else expire
  | Hangs => expire
  end.

(** [async with asyncio.timeout(delay): body] *)
Definition asyncio_timeout {A} (delay : nat) (body : option nat → M A) : M A :=
  λ st, body (Some (clock st + delay)) st.

(** [try: body except TimeoutError: handler] *)
Definition try_except_TimeoutError {A} (body handler : M A) : M A := λ st,
  match body st with
  | (Raised TimeoutError, st') => handler st'
  | r => r
  end.

(** ** Field updates *)

Definition with_page (p : option Handle) (bs : BrowserState) : BrowserState :=
  mkBrowserState (pw bs) (browser_context bs) p (browser_artifacts bs)
    (browser_cleanup bs).
Definition with_video_artifacts (v : list VideoArtifact) (bs : BrowserState)
  : BrowserState :=
  mkBrowserState (pw bs) (browser_context bs) (page bs)
    (mkBrowserArtifacts v (har_path (browser_artifacts bs))
       (traces_dir (browser_artifacts bs)))
    (browser_cleanup bs).
Definition with_video_data (data : bytes) (v : VideoArtifact) : VideoArtifact :=
  mkVideoArtifact (video_path v) (Some data).

(** ** Durable storage: [os.path.exists] and [open(path, "rb").read()] *)

Inductive FsNode :=
| File (content : bytes)
| Directory.

Definition FS := string → option FsNode.

Definition os_path_exists (fs : FS) (path : string) : bool :=
  match fs path with Some _ => true | None => false end.

Definition open_read (fs : FS) (path : string) : M bytes :=
  match fs path with
  | Some (File content) => mret content
  | Some Directory => raise (IsADirectoryError path)
  | None => raise (FileNotFoundError path)
  end.

(** ** The manager *)

Section BrowserManager.

Variable drv : Driver.
(** [skyvern.constants.BROWSER_CLOSE_TIMEOUT] *)
Variable BROWSER_CLOSE_TIMEOUT : nat.

(** Modelled from the spec: [BrowserState.get_or_create_page] is defined in
    [skyvern/webeye/browser_factory.py]; it does nothing when the session has
    a page and otherwise obtains one from the driver for the target URL and
    stores it in [page]. *)
Definition BrowserState_get_or_create_page (bs : Ref)
    (url : option string) (proxy : option ProxyLocation)
    (task workflow_run organization : option string) : M unit :=
  state ← deref bs;
  match page state with
  | Some _ => mret tt
  | None =>
      p ← await None (GetOrCreatePage bs url proxy task workflow_run organization)
            (λ h, drv_get_or_create_page drv h bs url proxy task workflow_run
                    organization);
      update bs (with_page (Some p))
  end.

(** Modelled from the spec: [BrowserState.close] is defined in
    [skyvern/webeye/browser_factory.py]; it releases the context and, unless
    told to keep it, the engine.  It is one awaited call of the driver and
    touches neither the dictionary nor the fields of the session. *)
Definition BrowserState_close (deadline : option nat) (bs : Ref)
    (close_browser_on_completion : option bool) : M unit :=
  await deadline (BrowserStateClose bs close_browser_on_completion)
    (λ h, drv_close drv h bs close_browser_on_completion).

Definition _create_browser_state (proxy : option ProxyLocation)
    (url task workflow_run organization : option string) : M Ref :=
  pw ← await None PlaywrightStart (drv_playwright_start drv);
  created ← await None
    (CreateBrowserContext pw proxy url task workflow_run organization)
    (λ h, drv_create_browser_context drv h pw proxy url task workflow_run
            organization);
  let '(context, artifacts, cleanup) := created in
  alloc (mkBrowserState pw (Some context) None artifacts cleanup).

Definition get_or_create_for_task (task : Task) : M Ref :=
  registry ← get_pages;
  match dict_get (task_id task) registry with
  | Some _ => pages_getitem (task_id task)
  | None =>
      match dict_find (workflow_run_id task) registry with
      | Some _ =>
          log Info
            "Browser state for task not found. Using browser state for workflow run";;
          shared ← pages_getitem_opt (workflow_run_id task);
          pages_setitem (task_id task) shared;;
          pages_getitem (task_id task)
      | None =>
          log Info "Creating browser state for task";;
          browser_state ← _create_browser_state (proxy_location task)
            (url task) (Some (task_id task)) None (organization_id task);
          BrowserState_get_or_create_page browser_state (url task)
            (proxy_location task) (Some (task_id task)) None
            (organization_id task);;
          pages_setitem (task_id task) browser_state;;
          match truthy (workflow_run_id task) with
          | Some run => pages_setitem run browser_state
          | None => mret tt
          end;;
          mret browser_state
      end
  end.

Definition get_or_create_for_workflow_run (workflow_run : WorkflowRun)
    (url : option string) : M Ref :=
  registry ← get_pages;
  match dict_get (run_workflow_run_id workflow_run) registry with
  | Some _ => pages_getitem (run_workflow_run_id workflow_run)
  | None =>
      log Info "Creating browser state for workflow run";;
      browser_state ← _create_browser_state (run_proxy_location workflow_run)
        url None (Some (run_workflow_run_id workflow_run))
        (run_organization_id workflow_run);
      BrowserState_get_or_create_page browser_state url
        (run_proxy_location workflow_run) None
        (Some (run_workflow_run_id workflow_run))
        (run_organization_id workflow_run);;
      pages_setitem (run_workflow_run_id workflow_run) browser_state;;
      mret browser_state
  end.

Definition get_for_workflow_run (workflow_run_id : string) : M (option Ref) :=
  registry ← get_pages;
  match dict_get workflow_run_id registry with
  | Some _ => r ← pages_getitem workflow_run_id; mret (Some r)
  | None => mret None
  end.

Definition set_video_artifact_for_task (task : Task)
    (artifacts : list VideoArtifact) : M unit :=
  registry ← get_pages;
  match truthy (workflow_run_id task) with
  | Some run =>
      match dict_get run registry with
      | Some _ =>
          r ← pages_getitem run; update r (with_video_artifacts artifacts)
      | None =>
          match dict_get (task_id task) registry with
          | Some _ =>
              r ← pages_getitem (task_id task);
              update r (with_video_artifacts artifacts)
          | None => raise (MissingBrowserState (task_id task))
          end
      end
  | None =>
      match dict_get (task_id task) registry with
      | Some _ =>
          r ← pages_getitem (task_id task);
          update r (with_video_artifacts artifacts)
      | None => raise (MissingBrowserState (task_id task))
      end
  end.

(** The body of the loop over [enumerate(video_artifacts)], from index [i]. *)
Fixpoint read_videos (fs : FS) (browser_state : Ref) (i : nat)
    (todo : list VideoArtifact) : M unit :=
  match todo with
  | [] => mret tt
  | video_artifact :: rest =>
      match truthy (video_path video_artifact) with
      | Some path =>
          if os_path_exists fs path then
            data ← open_read fs path;
            update browser_state (λ bs,
              with_video_artifacts
                (alter (with_video_data data) i
                   (video_artifacts (browser_artifacts bs))) bs)
          else mret tt
      | None => mret tt
      end;;
      read_videos fs browser_state (S i) rest
  end.

Definition get_video_artifacts (fs : FS) (browser_state : Ref)
  : M (list VideoArtifact) :=
  bs ← deref browser_state;
  match video_artifacts (browser_artifacts bs) with
  | [] => log Warning "Video data not found for task";; mret []
  | recorded =>
      read_videos fs browser_state 0 recorded;;
      bs' ← deref browser_state;
      mret (video_artifacts (browser_artifacts bs'))
  end.

Definition get_har_data (fs : FS) (browser_state : option Ref) : M bytes :=
  let missing := log Warning "HAR data not found for task";; mret [] in
  match browser_state with
  | Some r =>
      bs ← deref r;
      match truthy (har_path (browser_artifacts bs)) with
      | Some path =>
          if os_path_exists fs path then open_read fs path else missing
      | None => missing
      end
  | None => missing
  end.

(** The loop of [close] over [cls.pages.values()]. *)
Fixpoint close_each (values : list Ref) : M unit :=
  match values with
  | [] => mret tt
  | browser_state :: rest =>
      BrowserState_close None browser_state None;; close_each rest
  end.

Definition close : M unit :=
  log Info "Closing BrowserManager";;
  registry ← get_pages;
  close_each (dict_values registry);;
  put_pages [];;
  log Info "BrowserManger is closed".

(** The tracing stop shared by both teardown paths: only when the session has
    a context and a trace directory. *)
Definition stop_tracing (deadline : option nat) (bs : BrowserState)
    (key : string) : M unit :=
  match browser_context bs, truthy (traces_dir (browser_artifacts bs)) with
  | Some context, Some dir =>
      let trace_path := dir +:+ "/" +:+ key +:+ ".zip" in
      await deadline (TracingStop context trace_path)
        (λ h, drv_tracing_stop drv h context trace_path);;
      log Info "Stopped tracing"
  | _, _ => mret tt
  end.

Definition cleanup_for_task (task_id : string)
    (close_browser_on_completion : bool) : M (option Ref) :=
  log Info "Cleaning up for task";;
  browser_state_to_close ← pages_pop task_id;
  try_except_TimeoutError
    (match browser_state_to_close with
     | Some r =>
         asyncio_timeout BROWSER_CLOSE_TIMEOUT (λ deadline,
           bs ← deref r;
           stop_tracing deadline bs task_id;;
           BrowserState_close deadline r (Some close_browser_on_completion))
     | None => mret tt
     end;;
     log Info "Task is cleaned up")
    (log Warning "Timeout on task cleanup");;
  mret browser_state_to_close.

(** The loop of [cleanup_for_workflow_run] over [task_ids]. *)
Fixpoint pop_each (task_ids : list string) : M unit :=
  match task_ids with
  | [] => mret tt
  | task_id :: rest => pages_pop task_id;; pop_each rest
  end.

Definition cleanup_for_workflow_run (workflow_run_id : string)
    (task_ids : list string) (close_browser_on_completion : bool)
  : M (option Ref) :=
  log Info "Cleaning up for workflow run";;
  browser_state_to_close ← pages_pop workflow_run_id;
  match browser_state_to_close with
  | Some r =>
      bs ← deref r;
      stop_tracing None bs workflow_run_id;;
      BrowserState_close None r (Some close_browser_on_completion)
  | None => mret tt
  end;;
  pop_each task_ids;;
  log Info "Workflow run is cleaned up";;
  mret browser_state_to_close.

(** ** Reachable states *)

Inductive Op :=
| GetOrCreateForTask (task : Task)
| GetOrCreateForWorkflowRun (workflow_run : WorkflowRun) (url : option string)
| GetForWorkflowRun (workflow_run_id : string)
| SetVideoArtifactForTask (task : Task) (artifacts : list VideoArtifact)
| GetVideoArtifacts (fs : FS) (browser_state : Ref)
| GetHarData (fs : FS) (browser_state : option Ref)
| Close
| CleanupForTask (task_id : string) (close_browser_on_completion : bool)
| CleanupForWorkflowRun (workflow_run_id : string) (task_ids : list string)
    (close_browser_on_completion : bool).

(** The state in which a call leaves the manager, whatever its outcome. *)
Definition run_op (op : Op) (st : State) : State :=
  match op with
  | GetOrCreateForTask task => (get_or_create_for_task task st).2
  | GetOrCreateForWorkflowRun w url => (get_or_create_for_workflow_run w url st).2
  | GetForWorkflowRun k => (get_for_workflow_run k st).2
  | SetVideoArtifactForTask task a => (set_video_artifact_for_task task a st).2
  | GetVideoArtifacts fs r => (get_video_artifacts fs r st).2
  | GetHarData fs r => (get_har_data fs r st).2
  | Close => (close st).2
  | CleanupForTask k c => (cleanup_for_task k c st).2
  | CleanupForWorkflowRun k ks c => (cleanup_for_workflow_run k ks c st).2
  end.

Inductive reachable : State → Prop :=
| reachable_initial : reachable initial
| reachable_step op st : reachable st → reachable (run_op op st).

End BrowserManager.

(** ** Notions used by the statements *)

(** The exception, if any, with which the driver answers [call] when the
    events before the call are [h]. *)
Definition failure_of (drv : Driver) (h : list Event) (call : DriverCall)
  : option Exn :=
  let failure {A} (b : Behaviour A) :=
    match b with Fails _ e => Some e | _ => None end in
  match call with
  | PlaywrightStart => failure (drv_playwright_start drv h)
  | CreateBrowserContext pw proxy url task run org =>
      failure (drv_create_browser_context drv h pw proxy url task run org)
  | GetOrCreatePage bs url proxy task run org =>
      failure (drv_get_or_create_page drv h bs url proxy task run org)
  | TracingStop context path => failure (drv_tracing_stop drv h context path)
  | BrowserStateClose bs keep => failure (drv_close drv h bs keep)
  end.

(** The object behind [r] exists and its page handle is not [None]. *)
Definition page_ready (h : list BrowserState) (r : Ref) : Prop :=
  ∃ bs, h !! r = Some bs ∧ is_Some (page bs).

(** Every registered session has a page. *)
Definition registry_ready (st : State) : Prop :=
  ∀ r, r ∈ dict_values (pages st) → page_ready (heap st) r.

(** The heap [h'] has every object of [h], and every page [h] had. *)
Definition heap_extends (h h' : list BrowserState) : Prop :=
  length h ≤ length h' ∧ ∀ r, page_ready h r → page_ready h' r.

(** How one call may change the dictionary: not at all, by an alias of a
    registered session under a new key, by one or two new keys for the
    session the call created, or by removals. *)
Inductive registry_change (st st' : State) : Prop :=
| change_none :
    pages st' = pages st → registry_change st st'
| change_alias k k' r :
    dict_get k (pages st) = None → dict_get k' (pages st) = Some r →
    pages st' = dict_set k r (pages st) → registry_change st st'
| change_created k :
    dict_get k (pages st) = None →
    page_ready (heap st') (length (heap st)) →
    pages st' = dict_set k (length (heap st)) (pages st) →
    registry_change st st'
| change_created_with_parent k k' :
    dict_get k (pages st) = None → dict_get k' (pages st) = None →
    page_ready (heap st') (length (heap st)) →
    pages st' =
      dict_set k' (length (heap st)) (dict_set k (length (heap st)) (pages st)) →
    registry_change st st'
| change_removed ks :
    pages st' = foldl (λ d k, dict_remove k d) (pages st) ks →
    registry_change st st'
| change_cleared :
    pages st' = [] → registry_change st st'.

(** [b] does not complete within [budget] units of time. *)
Definition too_slow {A} (budget : nat) (b : Behaviour A) : Prop :=
  match b with
  | Finishes d _ | Fails d _ => budget < d
  | Hangs => True
  end.

(** The deadline of [cleanup_for_task key keep] passes before the close of
    the session [r] (whose fields are [bs]) has finished: the close is too
    slow for what the trace stop, if there is one, has left of the budget,
    or the trace stop alone is too slow. *)
Definition close_deadline_exceeded (drv : Driver) (budget : nat)
    (key : string) (keep : bool) (st : State) (r : Ref) (bs : BrowserState)
  : Prop :=
  let h := trace st ++ [EvLog Info "Cleaning up for task"] in
  match browser_context bs, truthy (traces_dir (browser_artifacts bs)) with
  | Some context, Some dir =>
      let path := dir +:+ "/" +:+ key +:+ ".zip" in
      match drv_tracing_stop drv h context path with
      | Finishes d _ =>
          d ≤ budget →
          too_slow (budget - d)
            (drv_close drv
               (h ++ [EvAwait (TracingStop context path)
                        (dict_remove key (pages st));
                      EvLog Info "Stopped tracing"])
               r (Some keep))
      | Fails d _ => budget < d
      | Hangs => True
      end
  | _, _ => too_slow budget (drv_close drv h r (Some keep))
  end.

(** What [get_video_artifacts] leaves in a descriptor: the content of the
    file at its path when there is one, and the descriptor as it was when the
    path is absent, empty or names nothing on storage. *)
Definition retrieved (fs : FS) (v : VideoArtifact) : VideoArtifact :=
  match truthy (video_path v) with
  | Some path =>
      match fs path with
      | Some (File content) => with_video_data content v
      | _ => v
      end
  | None => v
  end.


(** A call of either creation path for the primary key [key] returned the
    session [r] and left the manager in [st']. *)
Definition get_or_create_returned (drv : Driver) (key : string)
    (st : State) (r : Ref) (st' : State) : Prop :=
  (∃ task, task_id task = key ∧
     get_or_create_for_task drv task st = (Returned r, st')) ∨
  (∃ run url, run_workflow_run_id run = key ∧
     get_or_create_for_workflow_run drv run url st = (Returned r, st')).

(** No session is referenced by more than two keys. *)
Definition at_most_two_keys (st : State) : Prop :=
  ∀ r, fan_in r (pages st) ≤ 2.

(** Whenever [m] awaits a call of a collaborator that fails, [m] raises
    that very exception: every awaited call among the events [m] adds to the
    log that the driver answers with a failure [e] makes the outcome
    [Raised e]. *)
Definition failures_propagate {A} (drv : Driver) (m : M A) : Prop :=
  ∀ st o st', m st = (o, st') →
    ∃ events, trace st' = trace st ++ events ∧
      ∀ h call registry tail e,
        events = h ++ EvAwait call registry :: tail →
        failure_of drv (trace st ++ h) call = Some e → o = Raised e.

(** The session that receives the recordings of [task]: that of its
    workflow-run id when this id is not empty and is registered, and else
    that of its own id. *)
Definition recording_target (task : Task) (st : State) : option Ref :=
  match truthy (workflow_run_id task) with
  | Some run =>
      match dict_get run (pages st) with
      | Some r => Some r
      | None => dict_get (task_id task) (pages st)
      end
  | None => dict_get (task_id task) (pages st)
  end.

(** No path among [recordings] names a directory. *)
Definition no_directory (fs : FS) (recordings : list VideoArtifact) : Prop :=
  Forall (λ v, ∀ p, truthy (video_path v) = Some p → fs p ≠ Some Directory)
    recordings.

(** How often the close of the session [r] was awaited in [events]. *)
Definition is_close_of (r : Ref) (e : Event) : bool :=
  match e with
  | EvAwait (BrowserStateClose r' _) _ => bool_decide (r' = r)
  | _ => false
  end.
Definition close_calls (r : Ref) (events : list Event) : nat :=
  length (List.filter (is_close_of r) events).

(** ** Concrete collaborators and inputs *)

Module Scenario.

Definition artifacts : BrowserArtifacts :=
  mkBrowserArtifacts [] None (Some "/traces").

(** Every call completes after one unit of time. *)
Definition prompt : Driver := mkDriver
  (λ _, Finishes 1 7)
  (λ _ _ _ _ _ _ _, Finishes 1 (8, artifacts, None))
  (λ _ _ _ _ _ _ _, Finishes 1 9)
  (λ _ _ _, Finishes 1 tt)
  (λ _ _ _, Finishes 1 tt).

(** As [prompt], but a close never returns. *)
Definition hung : Driver := mkDriver
  (drv_playwright_start prompt)
  (drv_create_browser_context prompt)
  (drv_get_or_create_page prompt)
  (drv_tracing_stop prompt)
  (λ _ _ _, Hangs).

(** As [prompt], but no browser context can be created. *)
Definition contextless : Driver := mkDriver
  (drv_playwright_start prompt)
  (λ _ _ _ _ _ _ _, Fails 1 (DriverError "browser failed to launch"))
  (drv_get_or_create_page prompt)
  (drv_tracing_stop prompt)
  (drv_close prompt).

Definition timeout : nat := 180.

Definition task (id run : string) : Task :=
  mkTask id (Some run) None (Some "https://example.com") None.
Definition t1 : Task := task "t1" "w1".
Definition t2 : Task := task "t2" "w1".
Definition w1 : WorkflowRun := mkWorkflowRun "w1" None None.

(** A task of the workflow run [w1] has asked for its session. *)
Definition after_t1 (drv : Driver) : State :=
  run_op drv timeout (GetOrCreateForTask t1) initial.

(** A workflow run whose identifier is the empty string has a session. *)
Definition unnamed_run : State :=
  run_op prompt timeout
    (GetOrCreateForWorkflowRun (mkWorkflowRun "" None None) None) initial.

(** The workflow run [w1] has asked for its session. *)
Definition run_started : State :=
  run_op prompt timeout (GetOrCreateForWorkflowRun w1 None) initial.

(** The fields of the session that [prompt] creates. *)
Definition session : BrowserState :=
  mkBrowserState 7 (Some 8) (Some 9) artifacts None.

(** A task that names the empty string as its workflow run. *)
Definition orphan : Task := mkTask "t9" (Some "") None None None.

(** The workflow run [w1] has a session and two of its tasks share it. *)
Definition shared_by_two : State :=
  run_op prompt timeout (GetOrCreateForTask t2)
    (run_op prompt timeout (GetOrCreateForTask t1) run_started).

Definition one_file : FS :=
  λ path, if decide (path = "/videos/a.webm") then Some (File [x01; x02]) else None.

(** A task got a session, one recording was attached to it and read while
    its file was on storage. *)
Definition recording_read : State :=
  run_op prompt timeout (GetVideoArtifacts one_file 0)
    (run_op prompt timeout
       (SetVideoArtifactForTask t1
          [mkVideoArtifact (Some "/videos/a.webm") None])
       (after_t1 prompt)).

End Scenario.

(** ** The singleton and further notions *)

(** The class attribute [instance] of [BrowserManager] and the number of
    objects [super().__new__(cls)] has made so far. *)
Record ClassState := mkClassState {
  instance : option Ref;
  allocated : nat
}.

(** [BrowserManager.__new__] *)
Definition BrowserManager_new (cls : ClassState) : Ref * ClassState :=
  match instance cls with
  | None =>
      (allocated cls, mkClassState (Some (allocated cls)) (S (allocated cls)))
  | Some manager => (manager, cls)
  end.

(** The calls whose bodies contain no [await]: the lookup, the attaching of
    recordings and the two retrievals.  Such a call runs from its first line
    to its last without any other coroutine in between. *)
Definition awaits_nothing (op : Op) : bool :=
  match op with
  | GetForWorkflowRun _ | SetVideoArtifactForTask _ _
  | GetVideoArtifacts _ _ | GetHarData _ _ => true
  | _ => false
  end.

(** Every call that a creation awaits completes. *)
Definition creates_promptly (drv : Driver) : Prop :=
  (∀ h, ∃ d pw, drv_playwright_start drv h = Finishes d pw) ∧
  (∀ h pw proxy url task run org, ∃ d created,
     drv_create_browser_context drv h pw proxy url task run org
       = Finishes d created) ∧
  (∀ h bs url proxy task run org, ∃ d pg,
     drv_get_or_create_page drv h bs url proxy task run org = Finishes d pg).

(** [b] completes in less than [budget] units of time. *)
Definition completes_within {A} (budget : nat) (b : Behaviour A) : Prop :=
  match b with
  | Finishes d _ => d < budget
  | _ => False
  end.

(** The trace stop, if there is one, and the close of the session [r] of
    [cleanup_for_task key keep] both complete before the deadline. *)
Definition teardown_in_time (drv : Driver) (budget : nat)
    (key : string) (keep : bool) (st : State) (r : Ref) (bs : BrowserState)
  : Prop :=
  let h := trace st ++ [EvLog Info "Cleaning up for task"] in
  match browser_context bs, truthy (traces_dir (browser_artifacts bs)) with
  | Some context, Some dir =>
      let path := dir +:+ "/" +:+ key +:+ ".zip" in
      match drv_tracing_stop drv h context path with
      | Finishes d _ =>
          d < budget ∧
          completes_within (budget - d)
            (drv_close drv
               (h ++ [EvAwait (TracingStop context path)
                        (dict_remove key (pages st));
                      EvLog Info "Stopped tracing"])
               r (Some keep))
      | _ => False
      end
  | _, _ => completes_within budget (drv_close drv h r (Some keep))
  end.

(** ** Further concrete collaborators and inputs *)

Module Cases.

Import Scenario.

(** As [prompt], but the trace cannot be written. *)
Definition untraceable : Driver := mkDriver
  (drv_playwright_start prompt)
  (drv_create_browser_context prompt)
  (drv_get_or_create_page prompt)
  (λ _ _ _, Fails 1 (DriverError "disk full"))
  (drv_close prompt).

(** As [prompt], but the sessions record their network traffic. *)
Definition capturing : Driver := mkDriver
  (drv_playwright_start prompt)
  (λ _ _ _ _ _ _ _,
     Finishes 1 (8, mkBrowserArtifacts [] (Some "/har/t1.har") None, None))
  (drv_get_or_create_page prompt)
  (drv_tracing_stop prompt)
  (drv_close prompt).

Definition captured : BrowserState :=
  mkBrowserState 7 (Some 8) (Some 9)
    (mkBrowserArtifacts [] (Some "/har/t1.har") None) None.

Definition har_file : FS :=
  λ path, if decide (path = "/har/t1.har") then Some (File [x7b; x7d]) else None.

(** One recording whose file is on [one_file], one without a path. *)
Definition recordings : list VideoArtifact :=
  [mkVideoArtifact (Some "/videos/a.webm") None; mkVideoArtifact None None].

(** As [prompt], but only the first session gets a page. *)
Definition single_page : Driver := mkDriver
  (drv_playwright_start prompt)
  (drv_create_browser_context prompt)
  (λ _ bs _ _ _ _ _,
     if decide (bs = 0) then Finishes 1 9
     else Fails 1 (DriverError "no more pages"))
  (drv_tracing_stop prompt)
  (drv_close prompt).

(** A task got a session that records its network traffic, and
    [recordings] were attached to it. *)
Definition recorded : State :=
  run_op capturing timeout (SetVideoArtifactForTask t1 recordings)
    (after_t1 capturing).

End Cases.

(** * Properties *)

(** ** The dictionary *)

Lemma dict_get_set_eq k v d : dict_get k (dict_set k v d) = Some v.
Proof.
  induction d as [|[k' v'] d IH]; simpl.
  - by rewrite decide_True.
  - destruct (decide (k = k')) as [->|Hne]; simpl.
    + by rewrite decide_True.
    + by rewrite decide_False.
Qed.

Lemma dict_get_set_ne k k' v d :
  k ≠ k' → dict_get k' (dict_set k v d) = dict_get k' d.
Proof.
  intros Hne. induction d as [|[k0 v0] d IH]; simpl.
  - by rewrite decide_False.
  - destruct (decide (k = k0)) as [->|Hk]; simpl.
    + by rewrite !decide_False.
    + by rewrite IH.
Qed.

Lemma dict_get_remove_eq k d : dict_get k (dict_remove k d) = None.
Proof.
  induction d as [|[k' v'] d IH]; simpl; [done|].
  destruct (decide (k = k')); simpl; [done|]. by rewrite decide_False.
Qed.

Lemma dict_get_remove_ne k k' d :
  k ≠ k' → dict_get k' (dict_remove k d) = dict_get k' d.
Proof.
  intros Hne. induction d as [|[k0 v0] d IH]; simpl; [done|].
  destruct (decide (k = k0)) as [->|Hk]; simpl.
  - by rewrite decide_False.
  - by rewrite IH.
Qed.

Lemma dict_get_remove_None k k' d :
  dict_get k' d = None → dict_get k' (dict_remove k d) = None.
Proof.
  intros H. destruct (decide (k = k')) as [->|Hne].
  - apply dict_get_remove_eq.
  - by rewrite dict_get_remove_ne.
Qed.

Lemma dict_set_fresh k v d : dict_get k d = None → dict_set k v d = d ++ [(k, v)].
Proof.
  induction d as [|[k' v'] d IH]; simpl; [done|].
  destruct (decide (k = k')); [done|]. intros H. by rewrite IH.
Qed.

Lemma fan_in_app r d1 d2 : fan_in r (d1 ++ d2) = fan_in r d1 + fan_in r d2.
Proof. unfold fan_in, keys_of. by rewrite filter_app, map_app, length_app. Qed.

Lemma fan_in_remove_le r k d : fan_in r (dict_remove k d) ≤ fan_in r d.
Proof.
  unfold fan_in, keys_of. induction d as [|[k' v'] d IH]; simpl; [done|].
  destruct (decide (k = k')).
  - rewrite filter_cons. case_decide; simpl; lia.
  - rewrite !filter_cons. simpl. case_decide; simpl; lia.
Qed.

Lemma dict_get_elem_of k r d : dict_get k d = Some r → r ∈ dict_values d.
Proof.
  unfold dict_values. induction d as [|[k' v'] d IH]; simpl; [done|].
  destruct (decide (k = k')).
  - intros [= ->]. apply list_elem_of_here.
  - intros H. apply list_elem_of_further. auto.
Qed.

Lemma fan_in_unregistered r d : r ∉ dict_values d → fan_in r d = 0.
Proof.
  unfold fan_in, keys_of, dict_values.
  induction d as [|[k' v'] d IH]; intros H; [done|].
  rewrite filter_cons. simpl in *. apply not_elem_of_cons in H as [Hne H].
  rewrite decide_False by done. auto.
Qed.

Lemma dict_values_set k v d r :
  r ∈ dict_values (dict_set k v d) → r = v ∨ r ∈ dict_values d.
Proof.
  unfold dict_values. induction d as [|[k' v'] d IH]; simpl.
  - intros H. apply list_elem_of_singleton in H. auto.
  - destruct (decide (k = k')); simpl; intros H;
      apply elem_of_cons in H as [H|H]; auto.
    + right. by apply list_elem_of_further.
    + right. subst. apply list_elem_of_here.
    + destruct (IH H); auto. right. by apply list_elem_of_further.
Qed.

Lemma dict_values_remove k d r :
  r ∈ dict_values (dict_remove k d) → r ∈ dict_values d.
Proof.
  unfold dict_values. induction d as [|[k' v'] d IH]; simpl; [done|].
  destruct (decide (k = k')); simpl; intros H.
  - apply list_elem_of_further. auto.
  - apply elem_of_cons in H as [H|H].
    + subst. apply list_elem_of_here.
    + apply list_elem_of_further. auto.
Qed.

(** ** Creation *)

Lemma lookup_snoc {A} (l : list A) x : (l ++ [x]) !! length l = Some x.
Proof. by rewrite list_lookup_middle. Qed.

Lemma insert_snoc {A} (l : list A) x y :
  <[length l := y]> (l ++ [x]) = l ++ [y].
Proof. rewrite insert_app_r_alt by lia. by rewrite Nat.sub_diag. Qed.

Ltac unfold_prims :=
  unfold await, alloc, deref, update, get_pages, put_pages, pages_getitem,
    pages_getitem_opt, pages_setitem, pages_pop, log, raise, mbind, M_bind,
    mret, M_ret, set_pages, set_heap, set_clock, add_event in *.

Section Creation.

Variable drv : Driver.

Lemma create_browser_state_spec p u t w o st res st1 :
  _create_browser_state drv p u t w o st = (res, st1) →
  pages st1 = pages st ∧
  match res with
  | Returned r =>
      r = length (heap st) ∧ ∃ bs, heap st1 = heap st ++ [bs] ∧ page bs = None
  | _ => heap st1 = heap st
  end.
Proof.
  unfold _create_browser_state. unfold_prims. simpl.
  destruct (drv_playwright_start drv _) as [d pw|d e|]; simpl;
    [|by intros [= <- <-]..].
  destruct (drv_create_browser_context _ _ _ _ _ _ _ _)
    as [d2 [[ctx arts] cl]|d2 e|]; simpl; [|by intros [= <- <-]..].
  intros [= <- <-]. simpl. eauto.
Qed.

Lemma get_or_create_page_spec r u p t w o st res st1 bs :
  heap st !! r = Some bs →
  BrowserState_get_or_create_page drv r u p t w o st = (res, st1) →
  pages st1 = pages st ∧
  match res with
  | Returned _ => ∃ bs', heap st1 = <[r := bs']> (heap st) ∧ is_Some (page bs')
  | _ => heap st1 = heap st
  end.
Proof.
  intros Hbs. unfold BrowserState_get_or_create_page. unfold_prims. simpl.
  rewrite Hbs. destruct (page bs) as [pg|] eqn:Hpage.
  { intros [= <- <-]. split; [done|]. exists bs.
    rewrite list_insert_id by done. rewrite Hpage. eauto. }
  destruct (drv_get_or_create_page _ _ _ _ _ _ _ _) as [d pg|d e|]; simpl;
    [|by intros [= <- <-]..].
  rewrite Hbs. intros [= <- <-]. simpl. split; [done|].
  eexists. split; [done|]. simpl. eauto.
Qed.

(** A session is created and given a page, or nothing is registered. *)
Lemma create_with_page_spec p u t w o p' u' t' w' o' {A} (k : Ref → M A) st :
  (∃ res st1,
     (_create_browser_state drv p u t w o ≫= λ bs,
        BrowserState_get_or_create_page drv bs u' p' t' w' o' ≫= λ _, k bs) st
     = (res, st1) ∧ (∀ a, res ≠ Returned a) ∧ pages st1 = pages st ∧
     (heap st1 = heap st ∨ ∃ bs, heap st1 = heap st ++ [bs])) ∨
  (∃ st1 bs,
     (_create_browser_state drv p u t w o ≫= λ bs,
        BrowserState_get_or_create_page drv bs u' p' t' w' o' ≫= λ _, k bs) st
     = k (length (heap st)) st1 ∧ pages st1 = pages st ∧
     heap st1 = heap st ++ [bs] ∧ is_Some (page bs)).
Proof.
  unfold mbind, M_bind.
  destruct (_create_browser_state _ _ _ _ _ _ _) as [[r| |] st1] eqn:Hcreate;
    apply create_browser_state_spec in Hcreate as [Hpages Hheap].
  2,3: left; do 2 eexists; split; [done|]; rewrite Hheap; auto.
  destruct Hheap as (-> & bs & Hheap & Hnone).
  destruct (BrowserState_get_or_create_page _ _ _ _ _ _ _ _)
    as [[[]| |] st2] eqn:Hpage.
  all: eapply get_or_create_page_spec in Hpage as [Hpages2 Hheap2];
    [|rewrite Hheap; apply lookup_snoc].
  2,3: left; do 2 eexists; split; [done|]; rewrite Hpages2, Hheap2, Hheap; eauto.
  destruct Hheap2 as (bs' & Hheap2 & Hsome).
  rewrite Hheap, insert_snoc in Hheap2.
  right. exists st2, bs'. by rewrite Hpages2.
Qed.

Lemma get_or_create_for_task_cases task st o st' :
  get_or_create_for_task drv task st = (o, st') →
  (∃ r, dict_get (task_id task) (pages st) = Some r ∧ o = Returned r ∧ st' = st) ∨
  (∃ r, dict_get (task_id task) (pages st) = None ∧
     dict_find (workflow_run_id task) (pages st) = Some r ∧
     o = Returned r ∧ heap st' = heap st ∧
     pages st' = dict_set (task_id task) r (pages st)) ∨
  (dict_get (task_id task) (pages st) = None ∧
   dict_find (workflow_run_id task) (pages st) = None ∧
   ((o = Returned (length (heap st)) ∧
     (∃ bs, heap st' = heap st ++ [bs] ∧ is_Some (page bs)) ∧
     pages st' =
       match truthy (workflow_run_id task) with
       | Some run =>
           dict_set run (length (heap st))
             (dict_set (task_id task) (length (heap st)) (pages st))
       | None => dict_set (task_id task) (length (heap st)) (pages st)
       end) ∨
    ((∀ r, o ≠ Returned r) ∧ pages st' = pages st ∧
     (heap st' = heap st ∨ ∃ bs, heap st' = heap st ++ [bs])))).
Proof.
  unfold get_or_create_for_task.
  unfold get_pages. unfold mbind at 1, M_bind at 1.
  destruct (dict_get (task_id task) (pages st)) as [r|] eqn:Htask.
  { unfold pages_getitem. rewrite Htask. intros [= <- <-]. left. eauto. }
  destruct (dict_find (workflow_run_id task) (pages st)) as [r|] eqn:Hfind.
  { unfold_prims. simpl. rewrite Hfind. simpl.
    rewrite dict_get_set_eq. intros [= <- <-]. right; left. by exists r. }
  right; right. do 2 (split; [done|]). revert H.
  unfold mbind at 1, M_bind at 1. unfold log at 1.
  match goal with |- context [(_create_browser_state _ ?p ?u ?t ?w ?o ≫= λ bs,
      BrowserState_get_or_create_page _ bs ?u' ?p' ?t' ?w' ?o' ≫= λ _, @?k bs) ?s] =>
    destruct (create_with_page_spec p u t w o p' u' t' w' o' k s)
      as [(res & st1 & -> & Hres & Hpages & Hheap)
         |(st1 & bs & -> & Hpages & Hheap & Hsome)]
  end.
  { intros [= <- <-]. right. auto. }
  unfold_prims. simpl in *.
  destruct (truthy (workflow_run_id task)) as [run|]; simpl;
    intros [= <- <-]; left; simpl; rewrite Hpages, Hheap; eauto.
Qed.

Lemma get_or_create_for_workflow_run_cases run url st o st' :
  get_or_create_for_workflow_run drv run url st = (o, st') →
  (∃ r, dict_get (run_workflow_run_id run) (pages st) = Some r ∧
     o = Returned r ∧ st' = st) ∨
  (dict_get (run_workflow_run_id run) (pages st) = None ∧
   ((o = Returned (length (heap st)) ∧
     (∃ bs, heap st' = heap st ++ [bs] ∧ is_Some (page bs)) ∧
     pages st' =
       dict_set (run_workflow_run_id run) (length (heap st)) (pages st)) ∨
    ((∀ r, o ≠ Returned r) ∧ pages st' = pages st ∧
     (heap st' = heap st ∨ ∃ bs, heap st' = heap st ++ [bs])))).
Proof.
  unfold get_or_create_for_workflow_run.
  unfold get_pages. unfold mbind at 1, M_bind at 1.
  destruct (dict_get (run_workflow_run_id run) (pages st)) as [r|] eqn:Hrun.
  { unfold pages_getitem. rewrite Hrun. intros [= <- <-]. left. eauto. }
  right. split; [done|]. revert H.
  unfold mbind at 1, M_bind at 1. unfold log at 1.
  match goal with |- context [(_create_browser_state _ ?p ?u ?t ?w ?o ≫= λ bs,
      BrowserState_get_or_create_page _ bs ?u' ?p' ?t' ?w' ?o' ≫= λ _, @?k bs) ?s] =>
    destruct (create_with_page_spec p u t w o p' u' t' w' o' k s)
      as [(res & st1 & -> & Hres & Hpages & Hheap)
         |(st1 & bs & -> & Hpages & Hheap & Hsome)]
  end.
  { intros [= <- <-]. right. auto. }
  unfold_prims. simpl in *.
  intros [= <- <-]; left; simpl; rewrite Hpages, Hheap; eauto.
Qed.

End Creation.

(** ** What a call may do to the heap and to the dictionary *)

Lemma heap_extends_refl h : heap_extends h h.
Proof. by split. Qed.

Lemma heap_extends_trans h1 h2 h3 :
  heap_extends h1 h2 → heap_extends h2 h3 → heap_extends h1 h3.
Proof. intros [? ?] [? ?]. split; [lia|auto]. Qed.

Lemma heap_extends_snoc h bs : heap_extends h (h ++ [bs]).
Proof.
  split; [rewrite length_app; lia|].
  intros r (bs' & Hr & Hp). exists bs'. split; [|done].
  by apply lookup_app_l_Some.
Qed.

Lemma heap_extends_insert h r bs f :
  h !! r = Some bs → page (f bs) = page bs → heap_extends h (<[r := f bs]> h).
Proof.
  intros Hr Hf. split; [by rewrite length_insert|].
  intros r' (bs' & Hr' & Hp). destruct (decide (r = r')) as [<-|Hne].
  - exists (f bs). rewrite list_lookup_insert_eq by by eapply lookup_lt_Some.
    split; [done|]. rewrite Hf. by assert (bs' = bs) as -> by congruence.
  - exists bs'. by rewrite list_lookup_insert_ne.
Qed.

Lemma update_frame r f st o st' :
  (∀ bs, page (f bs) = page bs) →
  update r f st = (o, st') →
  pages st' = pages st ∧ heap_extends (heap st) (heap st').
Proof.
  intros Hf. unfold update. destruct (heap st !! r) as [bs|] eqn:Hr;
    intros [= <- <-]; simpl.
  - split; [done|]. by apply heap_extends_insert.
  - split; [done|]. apply heap_extends_refl.
Qed.

Lemma await_frame {A} deadline call (b : list Event → Behaviour A) st o st' :
  await deadline call b st = (o, st') →
  pages st' = pages st ∧ heap st' = heap st.
Proof.
  unfold await. destruct (b (trace st)); destruct deadline; simpl;
    repeat case_match; by intros [= <- <-].
Qed.

Section Frames.

Variable drv : Driver.
Variable BROWSER_CLOSE_TIMEOUT : nat.

Lemma get_for_workflow_run_eq k st :
  get_for_workflow_run k st = (Returned (dict_get k (pages st)), st).
Proof.
  unfold get_for_workflow_run. unfold_prims.
  destruct (dict_get k (pages st)) as [r|] eqn:Hk; [|done]. by rewrite Hk.
Qed.

Lemma set_video_artifact_for_task_frame task artifacts st o st' :
  set_video_artifact_for_task task artifacts st = (o, st') →
  pages st' = pages st ∧ heap_extends (heap st) (heap st').
Proof.
  assert (∀ k r, dict_get k (pages st) = Some r →
    (r ← pages_getitem k; update r (with_video_artifacts artifacts)) st
      = (o, st') →
    pages st' = pages st ∧ heap_extends (heap st) (heap st')) as Hattach.
  { intros k r Hk. unfold mbind, M_bind, pages_getitem. rewrite Hk.
    by apply update_frame. }
  unfold set_video_artifact_for_task. unfold mbind at 1, M_bind at 1, get_pages.
  pose proof (heap_extends_refl (heap st)).
  repeat case_match; eauto; by intros [= <- <-].
Qed.

Lemma read_videos_frame fs r todo : ∀ i st o st',
  read_videos fs r i todo st = (o, st') →
  pages st' = pages st ∧ heap_extends (heap st) (heap st').
Proof.
  induction todo as [|v todo IH]; intros i st o st'; simpl.
  { intros [= <- <-]. split; [done|]. apply heap_extends_refl. }
  unfold mbind at 1, M_bind at 1.
  match goal with |- (let (_, _) := ?m in _) = _ → _ =>
    destruct m as [o1 st1] eqn:Hstep end.
  assert (pages st1 = pages st ∧ heap_extends (heap st) (heap st1)) as [Hp Hh].
  { revert Hstep. pose proof (heap_extends_refl (heap st)).
    destruct (truthy (video_path v)) as [path|]; [|by intros [= <- <-]].
    destruct (os_path_exists fs path); [|by intros [= <- <-]].
    unfold mbind, M_bind, open_read.
    destruct (fs path) as [[content|]|]; [|by intros [= <- <-]..].
    unfold mret, M_ret. by apply update_frame. }
  destruct o1 as [[]| |]; [|by intros [= <- <-]..].
  intros Hrest. apply IH in Hrest as [Hp' Hh']. split; [congruence|].
  by eapply heap_extends_trans.
Qed.

Lemma get_video_artifacts_frame fs r st o st' :
  get_video_artifacts fs r st = (o, st') →
  pages st' = pages st ∧ heap_extends (heap st) (heap st').
Proof.
  unfold get_video_artifacts. unfold mbind at 1, M_bind at 1, deref at 1.
  pose proof (heap_extends_refl (heap st)).
  destruct (heap st !! r) as [bs|]; [|by intros [= <- <-]].
  destruct (video_artifacts (browser_artifacts bs)) as [|v vs];
    [by unfold_prims; intros [= <- <-]|].
  unfold mbind at 1, M_bind at 1.
  destruct (read_videos _ _ _ _ _) as [o1 st1] eqn:Hread.
  apply read_videos_frame in Hread as [Hp Hh].
  destruct o1 as [[]| |]; [|by intros [= <- <-]..].
  unfold_prims. destruct (heap st1 !! r); by intros [= <- <-].
Qed.

Lemma get_har_data_frame fs r st o st' :
  get_har_data fs r st = (o, st') → pages st' = pages st ∧ heap st' = heap st.
Proof.
  unfold get_har_data, open_read. unfold_prims.
  destruct r as [r|]; [|by intros [= <- <-]].
  destruct (heap st !! r) as [bs|]; [|by intros [= <- <-]].
  destruct (truthy _) as [path|]; [|by intros [= <- <-]].
  destruct (os_path_exists fs path); [|by intros [= <- <-]].
  destruct (fs path) as [[content|]|]; by intros [= <- <-].
Qed.

Lemma close_each_frame values : ∀ st o st',
  close_each drv values st = (o, st') →
  pages st' = pages st ∧ heap st' = heap st.
Proof.
  induction values as [|r values IH]; intros st o st'; simpl;
    [by intros [= <- <-]|].
  unfold mbind, M_bind, BrowserState_close.
  destruct (await _ _ _ _) as [o1 st1] eqn:Hawait.
  apply await_frame in Hawait as [Hp Hh].
  destruct o1 as [[]| |]; [|by intros [= <- <-]..].
  intros Hrest. apply IH in Hrest as [Hp' Hh']. split; congruence.
Qed.

Lemma close_frame st o st' :
  close drv st = (o, st') →
  heap st' = heap st ∧ (pages st' = pages st ∨ pages st' = []).
Proof.
  unfold close. unfold mbind, M_bind, log, get_pages, put_pages. simpl.
  destruct (close_each _ _ _) as [o1 st1] eqn:Hclose.
  apply close_each_frame in Hclose as [Hp Hh]. simpl in *.
  destruct o1 as [[]| |]; intros [= <- <-]; simpl; auto.
Qed.

Lemma stop_tracing_frame deadline bs key st o st' :
  stop_tracing drv deadline bs key st = (o, st') →
  pages st' = pages st ∧ heap st' = heap st.
Proof.
  unfold stop_tracing.
  destruct (browser_context bs) as [context|]; [|by intros [= <- <-]].
  destruct (truthy _) as [dir|]; [|by intros [= <- <-]].
  unfold mbind, M_bind, log.
  destruct (await _ _ _ _) as [o1 st1] eqn:Hawait.
  apply await_frame in Hawait as [Hp Hh].
  destruct o1 as [[]| |]; by intros [= <- <-].
Qed.

(** The part of both teardown paths between the [pop] and the last log line:
    the session is read, its tracing stopped and the session closed. *)
Lemma stop_and_close_frame deadline r key keep st o st' :
  (bs ← deref r;
   stop_tracing drv deadline bs key;;
   BrowserState_close drv deadline r keep) st = (o, st') →
  pages st' = pages st ∧ heap st' = heap st.
Proof.
  unfold mbind at 1, M_bind at 1, deref.
  destruct (heap st !! r) as [bs|]; [|by intros [= <- <-]].
  unfold mbind, M_bind, BrowserState_close.
  destruct (stop_tracing _ _ _ _ _) as [o1 st1] eqn:Hstop.
  apply stop_tracing_frame in Hstop as [Hp Hh].
  destruct o1 as [[]| |]; [|by intros [= <- <-]..].
  intros Hawait. apply await_frame in Hawait as [Hp' Hh']. split; congruence.
Qed.

Lemma cleanup_for_task_frame key keep st o st' :
  cleanup_for_task drv BROWSER_CLOSE_TIMEOUT key keep st = (o, st') →
  pages st' = dict_remove key (pages st) ∧ heap st' = heap st.
Proof.
  unfold cleanup_for_task.
  unfold mbind at 1 2, M_bind at 1 2, log at 1, pages_pop. simpl.
  set (st0 := set_pages _ _).
  assert (pages st0 = dict_remove key (pages st) ∧ heap st0 = heap st)
    as [Hp0 Hh0] by done.
  destruct (dict_get key (pages st)) as [r|].
  - unfold mbind at 1 2, M_bind at 1 2, try_except_TimeoutError.
    match goal with |- context [asyncio_timeout ?T ?f st0] =>
      destruct (asyncio_timeout T f st0) as [o1 st1] eqn:Hbody end.
    apply stop_and_close_frame in Hbody as [Hp Hh].
    unfold log, mret, M_ret.
    destruct o1 as [[]|[]|]; intros [= <- <-]; simpl; split; congruence.
  - unfold_prims. unfold try_except_TimeoutError. by intros [= <- <-].
Qed.

Lemma pop_each_eq ks : ∀ st,
  pop_each ks st =
    (Returned tt, set_pages (foldl (λ d k, dict_remove k d) (pages st) ks) st).
Proof.
  induction ks as [|k ks IH]; intros st; simpl.
  - by destruct st.
  - unfold mbind, M_bind, pages_pop. rewrite IH. by destruct st.
Qed.

Lemma cleanup_for_workflow_run_frame key ks keep st o st' :
  cleanup_for_workflow_run drv key ks keep st = (o, st') →
  heap st' = heap st ∧
  ∃ removed, pages st' = foldl (λ d k, dict_remove k d) (pages st) removed.
Proof.
  unfold cleanup_for_workflow_run.
  unfold mbind at 1 2, M_bind at 1 2, log at 1, pages_pop. simpl.
  set (st0 := set_pages _ _).
  assert (pages st0 = dict_remove key (pages st) ∧ heap st0 = heap st)
    as [Hp0 Hh0] by done.
  unfold mbind at 1, M_bind at 1.
  assert (∀ st1, pages st1 = pages st0 → heap st1 = heap st0 →
    (pop_each ks;; log Info "Workflow run is cleaned up";;
     mret (dict_get key (pages st))) st1 = (o, st') →
    heap st' = heap st ∧
    ∃ removed, pages st' = foldl (λ d k, dict_remove k d) (pages st) removed)
    as Hrest.
  { intros st1 Hp Hh. unfold mbind, M_bind. rewrite pop_each_eq.
    unfold log, mret, M_ret. intros [= <- <-]. simpl. split; [congruence|].
    exists (key :: ks). simpl. congruence. }
  destruct (dict_get key (pages st)) as [r|]; [|by apply Hrest].
  match goal with |- (let (_, _) := ?m in _) = _ → _ =>
    destruct m as [o1 st1] eqn:Hbody end.
  apply stop_and_close_frame in Hbody as [Hp Hh].
  destruct o1 as [[]|e|]; [by apply Hrest|..];
    intros [= <- <-]; (split; [congruence|]); exists [key]; simpl; congruence.
Qed.

End Frames.

(** ** The invariant of the reachable states *)

Lemma truthy_Some s x : truthy s = Some x → s = Some x ∧ x ≠ "".
Proof. destruct s as [s|]; simpl; [|done]. case_decide; naive_solver. Qed.

Lemma dict_set_twice k v d : dict_set k v (dict_set k v d) = dict_set k v d.
Proof.
  induction d as [|[k' v'] d IH]; simpl.
  - by rewrite decide_True.
  - destruct (decide (k = k')) as [->|Hne]; simpl.
    + by rewrite decide_True.
    + rewrite decide_False by done. by rewrite IH.
Qed.

Lemma fan_in_singleton r k v : fan_in r [(k, v)] ≤ 1.
Proof. unfold fan_in, keys_of. rewrite filter_cons. case_decide; simpl; lia. Qed.

Lemma fan_in_set_fresh r k v d :
  dict_get k d = None → fan_in r (dict_set k v d) ≤ fan_in r d + 1.
Proof.
  intros Hk. rewrite dict_set_fresh, fan_in_app by done.
  pose proof (fan_in_singleton r k v). lia.
Qed.

Lemma fan_in_set_other r k v d :
  dict_get k d = None → v ≠ r → fan_in r (dict_set k v d) = fan_in r d.
Proof.
  intros Hk Hne. rewrite dict_set_fresh, fan_in_app by done.
  unfold fan_in at 2, keys_of. rewrite filter_cons. simpl.
  rewrite decide_False by done. simpl. lia.
Qed.

Lemma fan_in_removed r ks : ∀ d,
  fan_in r (foldl (λ d k, dict_remove k d) d ks) ≤ fan_in r d.
Proof.
  induction ks as [|k ks IH]; intros d; simpl; [done|].
  etrans; [apply IH|]. apply fan_in_remove_le.
Qed.

Lemma dict_values_removed r ks : ∀ d,
  r ∈ dict_values (foldl (λ d k, dict_remove k d) d ks) → r ∈ dict_values d.
Proof.
  induction ks as [|k ks IH]; intros d; simpl; [done|].
  intros H. apply IH in H. by eapply dict_values_remove.
Qed.

Lemma dict_get_None_keys k d : dict_get k d = None ↔ k ∉ d.*1.
Proof.
  induction d as [|[k' v] d IH]; simpl.
  - split; [intros _ H; by apply elem_of_nil in H|done].
  - destruct (decide (k = k')) as [->|Hne].
    + split; [done|]. intros []. apply list_elem_of_here.
    + rewrite IH, not_elem_of_cons. split; [by split|by intros [_ ?]].
Qed.

Lemma dict_set_keys_unique k v d : NoDup d.*1 → NoDup (dict_set k v d).*1.
Proof.
  induction d as [|[k' v'] d IH]; simpl.
  - intros _. apply NoDup_singleton.
  - rewrite NoDup_cons. intros [Hk' Hd].
    destruct (decide (k = k')) as [->|Hne]; simpl.
    + by apply NoDup_cons.
    + apply NoDup_cons. split; [|by apply IH].
      apply dict_get_None_keys. rewrite dict_get_set_ne by done.
      by apply dict_get_None_keys.
Qed.

Lemma dict_remove_keys_unique k d : NoDup d.*1 → NoDup (dict_remove k d).*1.
Proof.
  induction d as [|[k' v'] d IH]; simpl; [done|].
  rewrite NoDup_cons. intros [Hk' Hd].
  destruct (decide (k = k')) as [->|Hne]; simpl; [by apply IH|].
  apply NoDup_cons. split; [|by apply IH].
  apply dict_get_None_keys. rewrite dict_get_remove_ne by done.
  by apply dict_get_None_keys.
Qed.

Lemma page_ready_snoc h bs : is_Some (page bs) → page_ready (h ++ [bs]) (length h).
Proof. intros Hp. exists bs. by rewrite lookup_snoc. Qed.

Lemma page_ready_lt h r : page_ready h r → r < length h.
Proof. intros (bs & Hr & _). by eapply lookup_lt_Some. Qed.

Section Invariant.

Variable drv : Driver.
Variable BROWSER_CLOSE_TIMEOUT : nat.

Local Abbreviation run_op := (run_op drv BROWSER_CLOSE_TIMEOUT).
Local Abbreviation reachable := (reachable drv BROWSER_CLOSE_TIMEOUT).

Lemma run_op_change op st :
  heap_extends (heap st) (heap (run_op op st)) ∧
  registry_change st (run_op op st).
Proof.
  destruct op as [task|run url|k|task a|fs r|fs r| |k keep|k ks keep]; simpl.
  - destruct (get_or_create_for_task _ _ _) as [o st'] eqn:Hrun.
    apply get_or_create_for_task_cases in Hrun
      as [(r & Hk & -> & ->)|[(r & Hk & Hfind & -> & Hh & Hp)
         |(Hk & Hfind & [(-> & (bs & Hh & Hpage) & Hp)|(Hno & Hp & Hh)])]];
      simpl.
    + split; [apply heap_extends_refl|by constructor].
    + rewrite Hh. split; [apply heap_extends_refl|].
      destruct (workflow_run_id task) as [run|]; simpl in Hfind; [|done].
      by eapply change_alias.
    + rewrite Hh. split; [apply heap_extends_snoc|].
      revert Hp.
      destruct (truthy (workflow_run_id task)) as [run|] eqn:Htruthy; intros Hp.
      * apply truthy_Some in Htruthy as [Hrun _]. rewrite Hrun in Hfind.
        apply (change_created_with_parent _ _ (task_id task) run); [done..| |done].
        rewrite Hh. by apply page_ready_snoc.
      * eapply change_created; [done| |done].
        rewrite Hh. by apply page_ready_snoc.
    + split; [|by constructor].
      destruct Hh as [->|[bs ->]];
        [apply heap_extends_refl|apply heap_extends_snoc].
  - destruct (get_or_create_for_workflow_run _ _ _ _) as [o st'] eqn:Hrun.
    apply get_or_create_for_workflow_run_cases in Hrun
      as [(r & Hk & -> & ->)
         |(Hk & [(-> & (bs & Hh & Hpage) & Hp)|(Hno & Hp & Hh)])]; simpl.
    + split; [apply heap_extends_refl|by constructor].
    + rewrite Hh. split; [apply heap_extends_snoc|].
      eapply change_created; [done| |done].
      rewrite Hh. by apply page_ready_snoc.
    + split; [|by constructor].
      destruct Hh as [->|[bs ->]];
        [apply heap_extends_refl|apply heap_extends_snoc].
  - rewrite get_for_workflow_run_eq. simpl.
    split; [apply heap_extends_refl|by constructor].
  - destruct (set_video_artifact_for_task _ _ _) as [o st'] eqn:Hrun.
    apply set_video_artifact_for_task_frame in Hrun as [Hp Hh].
    split; [done|by constructor].
  - destruct (get_video_artifacts _ _ _) as [o st'] eqn:Hrun.
    apply get_video_artifacts_frame in Hrun as [Hp Hh].
    split; [done|by constructor].
  - destruct (get_har_data _ _ _) as [o st'] eqn:Hrun.
    apply get_har_data_frame in Hrun as [Hp Hh]. simpl. rewrite Hh.
    split; [apply heap_extends_refl|by constructor].
  - destruct (close _ _) as [o st'] eqn:Hrun.
    apply close_frame in Hrun as [Hh Hp]. simpl. rewrite Hh.
    split; [apply heap_extends_refl|].
    destruct Hp; [by apply change_none|by apply change_cleared].
  - destruct (cleanup_for_task _ _ _ _ _) as [o st'] eqn:Hrun.
    apply cleanup_for_task_frame in Hrun as [Hp Hh]. simpl. rewrite Hh.
    split; [apply heap_extends_refl|]. by apply (change_removed _ _ [k]).
  - destruct (cleanup_for_workflow_run _ _ _ _ _) as [o st'] eqn:Hrun.
    apply cleanup_for_workflow_run_frame in Hrun as [Hh [removed Hp]].
    simpl. rewrite Hh. split; [apply heap_extends_refl|].
    by apply (change_removed _ _ removed).
Qed.

Lemma registry_ready_change st st' :
  registry_ready st → heap_extends (heap st) (heap st') →
  registry_change st st' → registry_ready st'.
Proof.
  intros Hready [_ Hext] Hchange r.
  destruct Hchange as [Hp|k k' r0 Hk Hk' Hp|k Hk Hfresh Hp
                      |k k' Hk Hk' Hfresh Hp|ks Hp|Hp]; rewrite Hp; intros Hr.
  - auto.
  - apply dict_values_set in Hr as [->|Hr]; [|by auto].
    apply Hext, Hready. by eapply dict_get_elem_of.
  - apply dict_values_set in Hr as [->|Hr]; auto.
  - apply dict_values_set in Hr as [->|Hr]; [done|].
    apply dict_values_set in Hr as [->|Hr]; auto.
  - apply dict_values_removed in Hr. auto.
  - by apply elem_of_nil in Hr.
Qed.

Lemma reachable_ready st : reachable st → registry_ready st.
Proof.
  induction 1 as [|op st _ IH].
  - intros r Hr. by apply elem_of_nil in Hr.
  - destruct (run_op_change op st). by eapply registry_ready_change.
Qed.

Lemma registry_ready_get st k r :
  registry_ready st → dict_get k (pages st) = Some r → page_ready (heap st) r.
Proof. intros Hready Hk. by eapply Hready, dict_get_elem_of. Qed.

(** The dictionary holds every key once, so that [fan_in] counts keys. *)
Lemma reachable_keys_unique st : reachable st → NoDup (pages st).*1.
Proof.
  induction 1 as [|op st _ IH]; [constructor|].
  destruct (run_op_change op st) as [_ Hchange].
  destruct Hchange as [Hp|k k' r0 Hk Hk' Hp|k Hk Hfresh Hp
                      |k k' Hk Hk' Hfresh Hp|ks Hp|Hp]; rewrite Hp.
  - done.
  - by apply dict_set_keys_unique.
  - by apply dict_set_keys_unique.
  - by do 2 apply dict_set_keys_unique.
  - clear Hp. revert IH. generalize (pages st).
    induction ks as [|k ks IHks]; intros d Hd; [done|].
    simpl. by apply IHks, dict_remove_keys_unique.
  - constructor.
Qed.

Lemma fan_in_unallocated st r :
  registry_ready st → length (heap st) ≤ r → fan_in r (pages st) = 0.
Proof.
  intros Hready Hr. apply fan_in_unregistered. intros Hin.
  apply Hready, page_ready_lt in Hin. lia.
Qed.

Lemma fan_in_change st st' r :
  registry_ready st → registry_change st st' →
  (r < length (heap st) → fan_in r (pages st') ≤ fan_in r (pages st) + 1) ∧
  (length (heap st) ≤ r → fan_in r (pages st') ≤ 2).
Proof.
  intros Hready Hchange.
  assert (length (heap st) ≤ r → fan_in r (pages st) = 0) as Hzero
    by by apply fan_in_unallocated.
  destruct Hchange as [Hp|k k' r0 Hk Hk' Hp|k Hk Hfresh Hp
                      |k k' Hk Hk' Hfresh Hp|ks Hp|Hp]; rewrite Hp.
  - split; intros Hr; [lia|]. rewrite Hzero by done. lia.
  - pose proof (fan_in_set_fresh r k r0 (pages st) Hk).
    split; intros Hr; [done|]. rewrite Hzero in * by done. lia.
  - pose proof (fan_in_set_fresh r k (length (heap st)) (pages st) Hk).
    split; intros Hr; [done|]. rewrite Hzero in * by done. lia.
  - destruct (decide (k' = k)) as [->|Hne].
    + rewrite dict_set_twice.
      pose proof (fan_in_set_fresh r k (length (heap st)) (pages st) Hk).
      split; intros Hr; [done|]. rewrite Hzero in * by done. lia.
    + assert (dict_get k' (dict_set k (length (heap st)) (pages st)) = None)
        as Hk'' by (rewrite dict_get_set_ne; done).
      split; intros Hr.
      * rewrite !fan_in_set_other by (done || lia). lia.
      * pose proof (fan_in_set_fresh r k' (length (heap st)) _ Hk'').
        pose proof (fan_in_set_fresh r k (length (heap st)) (pages st) Hk).
        rewrite Hzero in * by done. lia.
  - pose proof (fan_in_removed r ks (pages st)).
    split; intros Hr; [lia|]. rewrite Hzero in * by done. lia.
  - split; intros _; unfold fan_in; simpl; lia.
Qed.

End Invariant.

(** ** Creation and aliasing *)

Section Registry.

Variable drv : Driver.
Variable BROWSER_CLOSE_TIMEOUT : nat.

Local Abbreviation run_op := (run_op drv BROWSER_CLOSE_TIMEOUT).
Local Abbreviation reachable := (reachable drv BROWSER_CLOSE_TIMEOUT).

Lemma get_or_create_returned_registered key st r st' :
  get_or_create_returned drv key st r st' → dict_get key (pages st') = Some r.
Proof.
  intros [(task & <- & Hrun)|(run & url & <- & Hrun)].
  - apply get_or_create_for_task_cases in Hrun
      as [(r' & Hk & [= <-] & ->)|[(r' & Hk & Hfind & [= <-] & Hh & Hp)
         |(Hk & Hfind & [([= ->] & _ & Hp)|(Hno & _)])]].
    + done.
    + rewrite Hp. apply dict_get_set_eq.
    + rewrite Hp. destruct (truthy _) as [run|]; [|apply dict_get_set_eq].
      destruct (decide (run = task_id task)) as [->|Hne].
      * apply dict_get_set_eq.
      * rewrite dict_get_set_ne by done. apply dict_get_set_eq.
    + by destruct (Hno r).
  - apply get_or_create_for_workflow_run_cases in Hrun
      as [(r' & Hk & [= <-] & ->)|(Hk & [([= ->] & _ & Hp)|(Hno & _)])].
    + done.
    + rewrite Hp. apply dict_get_set_eq.
    + by destruct (Hno r).
Qed.

Lemma get_or_create_returned_ready key st r st' :
  registry_ready st → get_or_create_returned drv key st r st' →
  page_ready (heap st') r.
Proof.
  intros Hready [(task & <- & Hrun)|(run & url & <- & Hrun)].
  - apply get_or_create_for_task_cases in Hrun
      as [(r' & Hk & [= <-] & ->)|[(r' & Hk & Hfind & [= <-] & Hh & Hp)
         |(Hk & Hfind & [([= ->] & (bs & Hh & Hpage) & Hp)|(Hno & _)])]].
    + by eapply registry_ready_get.
    + rewrite Hh. destruct (workflow_run_id task); [|done].
      by eapply registry_ready_get.
    + rewrite Hh. by apply page_ready_snoc.
    + by destruct (Hno r).
  - apply get_or_create_for_workflow_run_cases in Hrun
      as [(r' & Hk & [= <-] & ->)
         |(Hk & [([= ->] & (bs & Hh & Hpage) & Hp)|(Hno & _)])].
    + by eapply registry_ready_get.
    + rewrite Hh. by apply page_ready_snoc.
    + by destruct (Hno r).
Qed.

(** C5.  A task whose own key has no entry and whose workflow-run key is
    registered gets the very session of the workflow run: the call returns
    that reference, creates nothing, adds the entry for the task's key, and
    afterwards a lookup of the task key and a lookup of the workflow-run key
    give the same reference. *)
Theorem get_or_create_for_task_aliases task run st r :
  dict_get (task_id task) (pages st) = None →
  workflow_run_id task = Some run →
  dict_get run (pages st) = Some r →
  ∃ st',
    get_or_create_for_task drv task st = (Returned r, st') ∧
    pages st' = dict_set (task_id task) r (pages st) ∧
    heap st' = heap st ∧
    get_for_workflow_run (task_id task) st' = (Returned (Some r), st') ∧
    get_for_workflow_run run st' = (Returned (Some r), st').
Proof.
  intros Htask Hrun Hshared.
  assert (run ≠ task_id task) as Hne by congruence.
  destruct (get_or_create_for_task drv task st) as [o st'] eqn:Hcall.
  exists st'. apply get_or_create_for_task_cases in Hcall
    as [(r' & Hk & _)|[(r' & _ & Hfind & -> & Hh & Hp)|(_ & Hfind & _)]];
    rewrite ?Hrun in *; simpl in *; [congruence| |congruence].
  assert (r' = r) as -> by congruence.
  rewrite !get_for_workflow_run_eq, Hp.
  by rewrite dict_get_set_eq, dict_get_set_ne, Hshared.
Qed.

(** C6.  Once a creation path has returned a session for a primary key, a
    second call for the same key, through either path, returns the same
    reference and leaves the whole state as it was: the dictionary, the
    heap, the log and the clock. *)
Theorem get_or_create_twice key st r st1 :
  get_or_create_returned drv key st r st1 →
  (∀ task, task_id task = key →
     get_or_create_for_task drv task st1 = (Returned r, st1)) ∧
  (∀ run url, run_workflow_run_id run = key →
     get_or_create_for_workflow_run drv run url st1 = (Returned r, st1)).
Proof.
  intros Hfirst. apply get_or_create_returned_registered in Hfirst.
  split.
  - intros task <-. unfold get_or_create_for_task. unfold_prims.
    by rewrite !Hfirst.
  - intros run url <-. unfold get_or_create_for_workflow_run. unfold_prims.
    by rewrite !Hfirst.
Qed.

(** C7.  In a state reached by the public operations, when a creation path
    returns a session for a primary key, that key refers to the returned
    session and the page handle of the session is not [None]. *)
Theorem page_after_get_or_create key st r st1 :
  reachable st →
  get_or_create_returned drv key st r st1 →
  get_for_workflow_run key st1 = (Returned (Some r), st1) ∧
  ∃ bs, heap st1 !! r = Some bs ∧ page bs ≠ None.
Proof.
  intros Hreach Hcall. rewrite get_for_workflow_run_eq.
  rewrite (get_or_create_returned_registered _ _ _ _ Hcall). split; [done|].
  apply reachable_ready in Hreach.
  destruct (get_or_create_returned_ready _ _ _ _ Hreach Hcall)
    as (bs & Hr & Hp).
  exists bs. split; [done|]. by destruct Hp as [p ->].
Qed.

(** C2, as amended.  From a state reached by the public operations, one call
    adds at most one key to a session that existed before it and leaves at
    most two keys on a session that did not. *)
Theorem fan_in_per_call op st r :
  reachable st →
  (r < length (heap st) →
     fan_in r (pages (run_op op st)) ≤ fan_in r (pages st) + 1) ∧
  (length (heap st) ≤ r → fan_in r (pages (run_op op st)) ≤ 2).
Proof.
  intros Hreach. apply fan_in_change.
  - by eapply reachable_ready.
  - apply run_op_change.
Qed.

End Registry.

(** ** Failures of the driver during creation *)

Section Propagation.

Variable drv : Driver.

Lemma propagate_silent {A} (m : M A) :
  (∀ st o st', m st = (o, st') →
     ∃ events, trace st' = trace st ++ events ∧
       ∀ call registry, EvAwait call registry ∉ events) →
  failures_propagate drv m.
Proof.
  intros Hm st o st' Hrun. destruct (Hm _ _ _ Hrun) as (events & Ht & Hno).
  exists events. split; [done|]. intros h call registry tail e -> _.
  destruct (Hno call registry). apply elem_of_app. right. apply list_elem_of_here.
Qed.

Lemma propagate_ret {A} (a : A) : failures_propagate drv (mret a).
Proof.
  apply propagate_silent. intros st o st' [= <- <-]. exists [].
  rewrite app_nil_r. split; [done|]. intros ?? H. by apply elem_of_nil in H.
Qed.

Lemma propagate_bind {A B} (m : M A) (f : A → M B) :
  failures_propagate drv m → (∀ a, failures_propagate drv (f a)) →
  failures_propagate drv (m ≫= f).
Proof.
  intros Hm Hf st o st'. unfold mbind, M_bind.
  destruct (m st) as [o1 st1] eqn:Hrun.
  destruct (Hm _ _ _ Hrun) as (ev1 & Ht1 & Hfail1).
  destruct o1 as [a|e1|].
  - intros Hrest. destruct (Hf a _ _ _ Hrest) as (ev2 & Ht2 & Hfail2).
    exists (ev1 ++ ev2). split; [by rewrite Ht2, Ht1, app_assoc|].
    intros h call registry tail e Hsplit Hcall.
    apply app_eq_app in Hsplit as (l & [(-> & Hl)|(-> & ->)]).
    + destruct l as [|x l]; simpl in Hl.
      * rewrite app_nil_r in Ht1. rewrite <- Ht1 in Hcall.
        eapply (Hfail2 []); [by rewrite Hl|by rewrite app_nil_r].
      * injection Hl as <- ->. by discriminate (Hfail1 _ _ _ _ _ eq_refl Hcall).
    + rewrite app_assoc, <- Ht1 in Hcall. by eapply Hfail2.
  - intros [= <- <-]. exists ev1. split; [done|].
    intros h call registry tail e Hsplit Hcall.
    by injection (Hfail1 _ _ _ _ _ Hsplit Hcall) as ->.
  - intros [= <- <-]. exists ev1. split; [done|].
    intros h call registry tail e Hsplit Hcall.
    by discriminate (Hfail1 _ _ _ _ _ Hsplit Hcall).
Qed.

Lemma propagate_await {A} call (b : list Event → Behaviour A) :
  (∀ h, failure_of drv h call =
     match b h with Fails _ e => Some e | _ => None end) →
  failures_propagate drv (await None call b).
Proof.
  intros Hb st o st' Hrun. exists [EvAwait call (pages st)].
  revert Hrun. unfold await. simpl.
  split.
  { by destruct (b (trace st)); injection Hrun as <- <-. }
  intros h call' registry tail e Hsplit Hcall.
  destruct h as [|x [|y h]]; [|by destruct tail|done].
  injection Hsplit as <- <- <-. rewrite app_nil_r, Hb in Hcall.
  destruct (b (trace st)); by simplify_eq.
Qed.

Lemma propagate_quiet {A} (m : M A) :
  (∀ st, trace (m st).2 = trace st) → failures_propagate drv m.
Proof.
  intros Hm. apply propagate_silent. intros st o st' Hrun. exists [].
  specialize (Hm st). rewrite Hrun in Hm. rewrite app_nil_r.
  split; [done|]. intros ?? H. by apply elem_of_nil in H.
Qed.

Lemma propagate_log level msg : failures_propagate drv (log level msg).
Proof.
  apply propagate_silent. intros st o st' [= <- <-]. eexists. split; [done|].
  intros ?? H. apply list_elem_of_singleton in H. done.
Qed.
Lemma propagate_get_pages : failures_propagate drv get_pages.
Proof. by apply propagate_quiet. Qed.
Lemma propagate_pages_getitem k : failures_propagate drv (pages_getitem k).
Proof.
  apply propagate_quiet. intros st. unfold pages_getitem. by case_match.
Qed.
Lemma propagate_pages_getitem_opt k :
  failures_propagate drv (pages_getitem_opt k).
Proof.
  apply propagate_quiet. intros st. unfold pages_getitem_opt. by case_match.
Qed.
Lemma propagate_pages_setitem k r : failures_propagate drv (pages_setitem k r).
Proof. by apply propagate_quiet. Qed.
Lemma propagate_alloc bs : failures_propagate drv (alloc bs).
Proof. by apply propagate_quiet. Qed.
Lemma propagate_deref r : failures_propagate drv (deref r).
Proof. apply propagate_quiet. intros st. unfold deref. by case_match. Qed.
Lemma propagate_update r f : failures_propagate drv (update r f).
Proof. apply propagate_quiet. intros st. unfold update. by case_match. Qed.

Create HintDb propagate.
#[local] Hint Resolve propagate_ret propagate_log propagate_get_pages
  propagate_pages_getitem propagate_pages_getitem_opt propagate_pages_setitem
  propagate_alloc propagate_deref propagate_update : propagate.

Ltac propagate :=
  repeat first
    [ apply propagate_bind; [|intros ?]
    | apply propagate_await; by intros ?
    | progress auto with propagate
    | match goal with
      | |- failures_propagate _ (match ?x with _ => _ end) => destruct x
      | |- failures_propagate _ (let '(_, _) := ?x in _) => destruct x
      end ].

Lemma propagate_get_or_create_for_task task :
  failures_propagate drv (get_or_create_for_task drv task).
Proof.
  unfold get_or_create_for_task, _create_browser_state,
    BrowserState_get_or_create_page. propagate.
Qed.

Lemma propagate_get_or_create_for_workflow_run run url :
  failures_propagate drv (get_or_create_for_workflow_run drv run url).
Proof.
  unfold get_or_create_for_workflow_run, _create_browser_state,
    BrowserState_get_or_create_page. propagate.
Qed.

(** C8.  If, while a creation path runs from [st], the driver answers any
    call the path awaits with a failure [e], then the path raises [e] itself
    and the dictionary is what it was: it has no entry for the primary key,
    nor for the workflow-run key of the task. *)
Theorem creation_failure_propagates st h call registry tail e :
  failure_of drv (trace st ++ h) call = Some e →
  (∀ task o st',
     get_or_create_for_task drv task st = (o, st') →
     trace st' = trace st ++ h ++ EvAwait call registry :: tail →
     o = Raised e ∧ pages st' = pages st ∧
     dict_get (task_id task) (pages st') = None ∧
     dict_find (workflow_run_id task) (pages st') = None) ∧
  (∀ run url o st',
     get_or_create_for_workflow_run drv run url st = (o, st') →
     trace st' = trace st ++ h ++ EvAwait call registry :: tail →
     o = Raised e ∧ pages st' = pages st ∧
     dict_get (run_workflow_run_id run) (pages st') = None).
Proof.
  intros Hfail. split.
  - intros task o st' Hrun Htrace.
    destruct (propagate_get_or_create_for_task task _ _ _ Hrun)
      as (events & Ht & Hraise).
    rewrite Ht in Htrace. apply app_inv_head in Htrace.
    specialize (Hraise _ _ _ _ _ Htrace Hfail) as ->. split; [done|].
    apply get_or_create_for_task_cases in Hrun
      as [(? & _ & ? & _)|[(? & _ & _ & ? & _)
         |(Hk & Hfind & [(? & _)|(_ & Hp & _)])]]; try done.
    by rewrite Hp.
  - intros run url o st' Hrun Htrace.
    destruct (propagate_get_or_create_for_workflow_run run url _ _ _ Hrun)
      as (events & Ht & Hraise).
    rewrite Ht in Htrace. apply app_inv_head in Htrace.
    specialize (Hraise _ _ _ _ _ Htrace Hfail) as ->. split; [done|].
    apply get_or_create_for_workflow_run_cases in Hrun
      as [(? & _ & ? & _)|(Hk & [(? & _)|(_ & Hp & _)])]; try done.
    by rewrite Hp.
Qed.

End Propagation.

(** ** Teardown under the deadline *)

Section Teardown.

Variable drv : Driver.
Variable BROWSER_CLOSE_TIMEOUT : nat.

Lemma too_slow_late {A} (b : Behaviour A) now spent budget :
  spent ≤ budget → too_slow (budget - spent) b →
  match b with
  | Finishes d _ | Fails d _ =>
      bool_decide (now + spent + d < now + budget) = false
  | Hangs => True
  end.
Proof.
  intros Hspent. destruct b as [d a|d e|]; simpl; [| |done];
    intros Hslow; apply bool_decide_eq_false; lia.
Qed.

Lemma too_slow_from_start {A} (b : Behaviour A) now budget :
  too_slow budget b →
  match b with
  | Finishes d _ | Fails d _ => bool_decide (now + d < now + budget) = false
  | Hangs => True
  end.
Proof.
  destruct b as [d a|d e|]; simpl; [| |done];
    intros Hslow; apply bool_decide_eq_false; lia.
Qed.

(** C4.  When the deadline of the teardown of [key] passes before the close
    of its session has finished, [cleanup_for_task] still returns the session
    it removed and raises nothing: the last line it logs is the timeout
    warning.  The entry was removed first: it is absent from the dictionary
    as every awaited call of this teardown saw it, and a lookup of [key]
    after the call finds nothing. *)
Theorem cleanup_for_task_deadline key keep st r bs :
  dict_get key (pages st) = Some r →
  heap st !! r = Some bs →
  close_deadline_exceeded drv BROWSER_CLOSE_TIMEOUT key keep st r bs →
  ∃ st' events,
    cleanup_for_task drv BROWSER_CLOSE_TIMEOUT key keep st
      = (Returned (Some r), st') ∧
    pages st' = dict_remove key (pages st) ∧
    get_for_workflow_run key st' = (Returned None, st') ∧
    trace st' = trace st ++ events ∧
    last events = Some (EvLog Warning "Timeout on task cleanup") ∧
    (∀ call registry,
       EvAwait call registry ∈ events → dict_get key registry = None) ∧
    clock st' = clock st + BROWSER_CLOSE_TIMEOUT.
Proof.
  intros Hkey Hbs Hslow.
  assert (dict_get key (dict_remove key (pages st)) = None) as Hgone
    by apply dict_get_remove_eq.
  unfold close_deadline_exceeded in Hslow.
  unfold cleanup_for_task, asyncio_timeout, try_except_TimeoutError,
    stop_tracing, BrowserState_close.
  unfold_prims. simpl. rewrite Hkey. simpl. rewrite Hbs. simpl.
  assert (∀ st' events, trace st' = trace st ++ events →
    pages st' = dict_remove key (pages st) →
    clock st' = clock st + BROWSER_CLOSE_TIMEOUT →
    last events = Some (EvLog Warning "Timeout on task cleanup") →
    (∀ call registry,
       EvAwait call registry ∈ events → registry = dict_remove key (pages st)) →
    ∃ st'' events',
      (Returned (Some r), st') = (Returned (Some r), st'') ∧
      pages st'' = dict_remove key (pages st) ∧
      get_for_workflow_run key st'' = (Returned None, st'') ∧
      trace st'' = trace st ++ events' ∧
      last events' = Some (EvLog Warning "Timeout on task cleanup") ∧
      (∀ call registry,
         EvAwait call registry ∈ events' → dict_get key registry = None) ∧
      clock st'' = clock st + BROWSER_CLOSE_TIMEOUT) as Hdone.
  { intros st' events Ht Hp Hc Hlast Hsnap. exists st', events.
    rewrite get_for_workflow_run_eq, Hp, Hgone.
    repeat split; try done. intros call registry Hin.
    by rewrite (Hsnap _ _ Hin). }
  assert (∀ (events : list Event),
    Forall (λ ev, match ev with
                  | EvAwait _ registry => registry = dict_remove key (pages st)
                  | EvLog _ _ => True
                  end) events →
    ∀ call registry,
      EvAwait call registry ∈ events → registry = dict_remove key (pages st))
    as Hsnap.
  { intros events Hall call registry Hin.
    by apply (proj1 (Forall_forall _ _) Hall _ Hin). }
  destruct (browser_context bs) as [context|];
    [destruct (truthy (traces_dir (browser_artifacts bs))) as [dir|]|].
  - destruct (drv_tracing_stop drv _ _ _) as [d []|d e|]; simpl.
    + case_bool_decide as Hd; simpl.
      * assert (d ≤ BROWSER_CLOSE_TIMEOUT) as Hle by lia.
        specialize (Hslow Hle).
        apply (too_slow_late _ (clock st) d _ Hle) in Hslow.
        match type of Hslow with context [?h ++ [?a; ?b]] =>
          replace (h ++ [a; b]) with ((h ++ [a]) ++ [b]) in Hslow
            by (by rewrite <- app_assoc) end.
        destruct (drv_close drv _ _ _) as [d' []|d' e'|]; simpl;
          rewrite ?Hslow; simpl.
        all: eapply Hdone; simpl; [by rewrite <- !app_assoc|done..|].
        all: apply Hsnap; by repeat constructor.
      * eapply Hdone; simpl; [by rewrite <- !app_assoc|done..|].
        apply Hsnap; by repeat constructor.
    + rewrite bool_decide_eq_false_2 by lia. simpl.
      eapply Hdone; simpl; [by rewrite <- !app_assoc|done..|].
      apply Hsnap; by repeat constructor.
    + eapply Hdone; simpl; [by rewrite <- !app_assoc|done..|].
      apply Hsnap; by repeat constructor.
  - apply (too_slow_from_start _ (clock st)) in Hslow.
    destruct (drv_close drv _ _ _) as [d' []|d' e'|]; simpl;
      rewrite ?Hslow; simpl.
    all: eapply Hdone; simpl; [by rewrite <- !app_assoc|done..|].
    all: apply Hsnap; by repeat constructor.
  - apply (too_slow_from_start _ (clock st)) in Hslow.
    destruct (drv_close drv _ _ _) as [d' []|d' e'|]; simpl;
      rewrite ?Hslow; simpl.
    all: eapply Hdone; simpl; [by rewrite <- !app_assoc|done..|].
    all: apply Hsnap; by repeat constructor.
Qed.

End Teardown.

(** ** Recordings and network captures *)

Section Artifacts.

Variable drv : Driver.
Variable BROWSER_CLOSE_TIMEOUT : nat.

Local Abbreviation reachable := (reachable drv BROWSER_CLOSE_TIMEOUT).

(** C9, as amended.  In a state reached by the public operations the
    recordings go to the session registered under the workflow-run id of the
    task when this id is not empty and is registered, else to the session
    registered under the task's own id; [MissingBrowserState] is raised, and
    nothing changes, exactly when there is no such session. *)
Theorem set_video_artifact_for_task_target task artifacts st :
  reachable st →
  match recording_target task st with
  | Some r =>
      ∃ bs, heap st !! r = Some bs ∧
        set_video_artifact_for_task task artifacts st =
          (Returned tt,
           set_heap (<[r := with_video_artifacts artifacts bs]> (heap st)) st)
  | None =>
      set_video_artifact_for_task task artifacts st =
        (Raised (MissingBrowserState (task_id task)), st)
  end.
Proof.
  intros Hready%reachable_ready.
  assert (∀ k r, dict_get k (pages st) = Some r →
    ∃ bs, heap st !! r = Some bs ∧
      (r ← pages_getitem k; update r (with_video_artifacts artifacts)) st =
        (Returned tt,
         set_heap (<[r := with_video_artifacts artifacts bs]> (heap st)) st))
    as Hattach.
  { intros k r Hk.
    destruct (registry_ready_get _ _ _ Hready Hk) as (bs & Hr & _).
    exists bs. split; [done|]. unfold mbind, M_bind, pages_getitem, update.
    by rewrite Hk, Hr. }
  unfold recording_target, set_video_artifact_for_task.
  destruct (truthy (workflow_run_id task)) as [run|];
    [destruct (dict_get run (pages st)) as [r|] eqn:Hrun|];
    try destruct (dict_get (task_id task) (pages st)) as [r|] eqn:Htask.
  all: unfold mbind at 1, M_bind at 1, get_pages; rewrite ?Hrun, ?Htask.
  all: by eauto.
Qed.


Lemma read_video_step fs r v seen todo st bs :
  heap st !! r = Some bs →
  video_artifacts (browser_artifacts bs) = seen ++ v :: todo →
  (∀ p, truthy (video_path v) = Some p → fs p ≠ Some Directory) →
  ∃ st1 bs1,
    (match truthy (video_path v) with
     | Some path =>
         if os_path_exists fs path then
           data ← open_read fs path;
           update r (λ bs,
             with_video_artifacts
               (alter (with_video_data data) (length seen)
                  (video_artifacts (browser_artifacts bs))) bs)
         else mret tt
     | None => mret tt
     end) st = (Returned tt, st1) ∧
    heap st1 !! r = Some bs1 ∧
    video_artifacts (browser_artifacts bs1)
      = (seen ++ [retrieved fs v]) ++ todo ∧
    pages st1 = pages st ∧ trace st1 = trace st.
Proof.
  intros Hr Hlist Hfile. unfold retrieved, os_path_exists, open_read.
  destruct (truthy (video_path v)) as [path|] eqn:Hpath.
  2: { exists st, bs. by rewrite <- app_assoc. }
  destruct (fs path) as [[content|]|] eqn:Hfs.
  3: { exists st, bs. by rewrite <- app_assoc. }
  2: { by destruct (Hfile path). }
  unfold mbind, M_bind, mret, M_ret, update. rewrite Hr. simpl.
  eexists _, _. split; [done|]. simpl.
  rewrite list_lookup_insert_eq by by eapply lookup_lt_Some.
  split; [done|]. simpl. rewrite Hlist.
  rewrite alter_app_r_alt, Nat.sub_diag by done. simpl.
  by rewrite <- app_assoc.
Qed.

Lemma read_videos_retrieves fs r : ∀ todo seen st bs,
  heap st !! r = Some bs →
  video_artifacts (browser_artifacts bs) = seen ++ todo →
  no_directory fs todo →
  ∃ st' bs',
    read_videos fs r (length seen) todo st = (Returned tt, st') ∧
    heap st' !! r = Some bs' ∧
    video_artifacts (browser_artifacts bs') = seen ++ map (retrieved fs) todo ∧
    pages st' = pages st ∧ trace st' = trace st.
Proof.
  induction todo as [|v todo IH]; intros seen st bs Hr Hlist Hfiles.
  { exists st, bs. by rewrite Hlist. }
  apply Forall_cons in Hfiles as [Hfile Hfiles].
  destruct (read_video_step fs r v seen todo st bs Hr Hlist Hfile)
    as (st1 & bs1 & Hstep & Hr1 & Hlist1 & Hp1 & Ht1).
  destruct (IH (seen ++ [retrieved fs v]) st1 bs1 Hr1 Hlist1 Hfiles)
    as (st' & bs' & Hrest & Hr' & Hlist' & Hp' & Ht').
  exists st', bs'. simpl. unfold mbind at 1, M_bind at 1. rewrite Hstep.
  rewrite length_app, Nat.add_1_r in Hrest. rewrite Hrest.
  rewrite <- app_assoc in Hlist'. split; [done|]. split; [done|].
  split; [done|]. split; congruence.
Qed.



End Artifacts.

(** ** Shutdown and teardown of a workflow run *)

Lemma close_calls_app r e1 e2 :
  close_calls r (e1 ++ e2) = close_calls r e1 + close_calls r e2.
Proof. unfold close_calls. by rewrite List.filter_app, length_app. Qed.

Lemma close_calls_log r events level msg :
  close_calls r (events ++ [EvLog level msg]) = close_calls r events.
Proof. rewrite close_calls_app. unfold close_calls. simpl. lia. Qed.

Lemma fan_in_values r d :
  fan_in r d = length (filter (λ v, v = r) (dict_values d)).
Proof.
  unfold fan_in, keys_of, dict_values.
  induction d as [|[k v] d IH]; [done|].
  simpl. rewrite !filter_cons. simpl. case_decide; simpl; by rewrite IH.
Qed.

Lemma dict_get_removed k ks : ∀ d,
  k ∈ ks → dict_get k (foldl (λ d k, dict_remove k d) d ks) = None.
Proof.
  induction ks as [|k' ks IH]; intros d Hin; [by apply elem_of_nil in Hin|].
  simpl. destruct (decide (k ∈ ks)) as [Hks|Hks]; [by apply IH|].
  apply elem_of_cons in Hin as [->|Hin]; [|done].
  clear IH Hks. generalize (dict_get_remove_eq k' d).
  generalize (dict_remove k' d). induction ks as [|k ks IH]; [done|].
  intros d' Hd'. simpl. apply IH. by apply dict_get_remove_None.
Qed.

Lemma dict_get_removed_None k ks : ∀ d,
  dict_get k d = None → dict_get k (foldl (λ d k, dict_remove k d) d ks) = None.
Proof.
  induction ks as [|k' ks IH]; intros d Hd; [done|].
  simpl. apply IH. by apply dict_get_remove_None.
Qed.

Section Shutdown.

Variable drv : Driver.

Lemma close_each_calls values :
  (∀ h r, ∃ d, drv_close drv h r None = Finishes d tt) →
  ∀ st, ∃ st' events,
    close_each drv values st = (Returned tt, st') ∧
    pages st' = pages st ∧ trace st' = trace st ++ events ∧
    ∀ r, close_calls r events = length (filter (λ v, v = r) values).
Proof.
  intros Hprompt. induction values as [|v values IH]; intros st.
  { exists st, []. by rewrite app_nil_r. }
  simpl. unfold mbind, M_bind, BrowserState_close, await.
  destruct (Hprompt (trace st) v) as [d ->]. simpl.
  match goal with |- context [close_each drv values ?s] =>
    destruct (IH s) as (st' & events & -> & Hp & Ht & Hcalls) end.
  exists st', (EvAwait (BrowserStateClose v None) (pages st) :: events).
  split; [done|]. split; [done|]. split; [by rewrite Ht; simpl; rewrite <- app_assoc|].
  intros r. specialize (Hcalls r). rewrite filter_cons.
  unfold close_calls in *. simpl.
  case_decide; [rewrite bool_decide_eq_true_2|rewrite bool_decide_eq_false_2];
    simpl; congruence.
Qed.

(** X18.  What [close] does when every release completes: the dictionary is
    reset and the release of a session is awaited once for every key that
    referred to it. *)
Lemma close_once_per_key st :
  (∀ h r, ∃ d, drv_close drv h r None = Finishes d tt) →
  ∃ st' events,
    close drv st = (Returned tt, st') ∧ pages st' = [] ∧
    trace st' = trace st ++ events ∧
    ∀ r, close_calls r events = fan_in r (pages st).
Proof.
  intros Hprompt. unfold close. unfold mbind, M_bind, log, get_pages, put_pages.
  simpl.
  destruct (close_each_calls (dict_values (pages st)) Hprompt
    (add_event (EvLog Info "Closing BrowserManager") st))
    as (st1 & events & -> & Hp & Ht & Hcalls).
  eexists _, ([EvLog Info "Closing BrowserManager"] ++ events ++
              [EvLog Info "BrowserManger is closed"]).
  split; [done|]. simpl. split; [done|].
  split; [by rewrite Ht; simpl; rewrite <- !app_assoc|].
  intros r. rewrite fan_in_values, <- Hcalls.
  change (close_calls r (events ++ [EvLog Info "BrowserManger is closed"])
          = close_calls r events).
  apply close_calls_log.
Qed.

Lemma stop_and_close_completes r key keep st bs :
  heap st !! r = Some bs →
  (∀ h context path, ∃ d, drv_tracing_stop drv h context path = Finishes d tt) →
  (∀ h, ∃ d, drv_close drv h r (Some keep) = Finishes d tt) →
  ∃ st' events,
    (bs ← deref r;
     stop_tracing drv None bs key;;
     BrowserState_close drv None r (Some keep)) st = (Returned tt, st') ∧
    pages st' = pages st ∧ trace st' = trace st ++ events ∧
    ∀ r', close_calls r' events = if decide (r' = r) then 1 else 0.
Proof.
  intros Hbs Htrace Hclose.
  unfold stop_tracing, BrowserState_close.
  unfold mbind, M_bind, log, deref, await, mret, M_ret. rewrite Hbs.
  assert (∀ r', length (List.filter (is_close_of r')
      [EvAwait (BrowserStateClose r (Some keep)) (pages st)])
    = if decide (r' = r) then 1 else 0) as Hone.
  { intros r'. simpl.
    case_decide; [rewrite bool_decide_eq_true_2|rewrite bool_decide_eq_false_2];
      done. }
  destruct (browser_context bs) as [context|];
    [destruct (truthy (traces_dir (browser_artifacts bs))) as [dir|]|].
  - destruct (Htrace (trace st) context (dir +:+ "/" +:+ key +:+ ".zip"))
      as [d ->]. simpl.
    match goal with |- context [drv_close drv ?h r (Some keep)] =>
      destruct (Hclose h) as [d' ->] end. simpl.
    eexists _, [_; _; _]. split; [done|]. simpl. split; [done|].
    split; [by rewrite <- !app_assoc|]. apply Hone.
  - destruct (Hclose (trace st)) as [d' ->]. simpl.
    eexists _, [_]. split; [done|]. simpl. split; [done|].
    split; [done|]. apply Hone.
  - destruct (Hclose (trace st)) as [d' ->]. simpl.
    eexists _, [_]. split; [done|]. simpl. split; [done|].
    split; [done|]. apply Hone.
Qed.

(** X19.  What [cleanup_for_workflow_run] does when the trace stop and the
    close complete: the session of the workflow run is closed once, no other
    session is closed, and its key and the keys of the tasks are gone. *)
Lemma cleanup_for_workflow_run_completes key ks keep st r bs :
  dict_get key (pages st) = Some r →
  heap st !! r = Some bs →
  (∀ h context path, ∃ d, drv_tracing_stop drv h context path = Finishes d tt) →
  (∀ h, ∃ d, drv_close drv h r (Some keep) = Finishes d tt) →
  ∃ st' events,
    cleanup_for_workflow_run drv key ks keep st = (Returned (Some r), st') ∧
    trace st' = trace st ++ events ∧
    (∀ r', close_calls r' events = if decide (r' = r) then 1 else 0) ∧
    dict_get key (pages st') = None ∧
    ∀ k, k ∈ ks → dict_get k (pages st') = None.
Proof.
  intros Hkey Hbs Htrace Hclose.
  unfold cleanup_for_workflow_run.
  unfold mbind at 1 2, M_bind at 1 2, log at 1, pages_pop. simpl.
  rewrite Hkey. unfold mbind at 1, M_bind at 1.
  match goal with |- context [(deref r ≫= _) ?s] =>
    destruct (stop_and_close_completes r key keep s bs Hbs Htrace Hclose)
      as (st1 & events & -> & Hp & Ht & Hcalls) end.
  unfold mbind, M_bind. rewrite pop_each_eq. unfold log, mret, M_ret.
  eexists _, ([EvLog Info "Cleaning up for workflow run"] ++ events ++
              [EvLog Info "Workflow run is cleaned up"]).
  split; [done|]. simpl. split; [by rewrite Ht; simpl; rewrite <- !app_assoc|].
  split.
  { intros r'. rewrite <- Hcalls.
    change (close_calls r' (events ++ [EvLog Info "Workflow run is cleaned up"])
            = close_calls r' events).
    apply close_calls_log. }
  rewrite Hp. simpl. split.
  - apply dict_get_removed_None, dict_get_remove_eq.
  - intros k Hk. by apply dict_get_removed.
Qed.

End Shutdown.

(** ** The claims on concrete runs *)

Section Runs.

Import Scenario.

Lemma reachable_after_t1 drv : reachable drv timeout (after_t1 drv).
Proof. apply reachable_step, reachable_initial. Qed.

Lemma reachable_run_started : reachable prompt timeout run_started.
Proof. apply reachable_step, reachable_initial. Qed.

(** C1.  A task of a workflow run asks for its session, which is registered
    under the task's key and under the workflow run's key; [close] then
    awaits the release of that one session twice, once per key, before it
    resets the dictionary. *)
Theorem close_releases_shared_session_twice :
  pages (after_t1 prompt) = [("t1", 0); ("w1", 0)] ∧
  ∃ st',
    close prompt (after_t1 prompt) = (Returned tt, st') ∧
    pages st' = [] ∧
    close_calls 0 (trace st') = 2.
Proof. split; [reflexivity|]. eexists. vm_compute. done. Qed.

(** C2 fails.  A workflow run and two of its tasks ask for a session: the
    one session is referenced by three keys. *)
Lemma three_keys_one_session :
  reachable prompt timeout shared_by_two ∧ ¬ at_most_two_keys shared_by_two.
Proof.
  split.
  - do 2 apply reachable_step. apply reachable_run_started.
  - intros Hbound. specialize (Hbound 0). vm_compute in Hbound. lia.
Qed.

Lemma fan_in_per_call_witness :
  fan_in 0 (pages (run_op prompt timeout (GetOrCreateForTask t2) (after_t1 prompt)))
    ≤ fan_in 0 (pages (after_t1 prompt)) + 1.
Proof.
  apply (fan_in_per_call prompt timeout (GetOrCreateForTask t2)
           (after_t1 prompt) 0 (reachable_after_t1 prompt)).
  vm_compute. lia.
Defined.

(** C3.  The session of a workflow run is shared with one task and its close
    never returns.  [cleanup_for_workflow_run] has no deadline: it stays
    suspended on the close and the task's entry is still registered, whereas
    [cleanup_for_task] on the same session gives up at the deadline, logs
    the timeout and returns. *)
Theorem cleanup_for_workflow_run_waits_forever :
  (∃ st',
     cleanup_for_workflow_run hung "w1" ["t1"] true (after_t1 hung)
       = (Pending, st') ∧
     dict_get "t1" (pages st') = Some 0) ∧
  (∃ st',
     cleanup_for_task hung timeout "w1" true (after_t1 hung)
       = (Returned (Some 0), st') ∧
     last (trace st') = Some (EvLog Warning "Timeout on task cleanup")).
Proof. split; eexists; vm_compute; done. Qed.

Lemma cleanup_for_task_deadline_witness :
  close_deadline_exceeded hung timeout "t1" true (after_t1 hung) 0 session ∧
  ∃ st',
    cleanup_for_task hung timeout "t1" true (after_t1 hung)
      = (Returned (Some 0), st') ∧
    get_for_workflow_run "t1" st' = (Returned None, st').
Proof.
  assert (close_deadline_exceeded hung timeout "t1" true (after_t1 hung) 0
            session) as Hslow by (vm_compute; done).
  split; [done|].
  destruct (cleanup_for_task_deadline hung timeout "t1" true (after_t1 hung)
              0 session eq_refl eq_refl Hslow)
    as (st' & events & Hrun & _ & Hlookup & _).
  by exists st'.
Defined.

Lemma get_or_create_for_task_aliases_witness :
  ∃ st',
    get_or_create_for_task prompt t1 run_started = (Returned 0, st') ∧
    get_for_workflow_run "t1" st' = get_for_workflow_run "w1" st'.
Proof.
  destruct (get_or_create_for_task_aliases prompt t1 "w1" run_started 0
              eq_refl eq_refl eq_refl)
    as (st' & Hrun & _ & _ & Htask & Hparent).
  exists st'. split; [done|]. exact (eq_trans Htask (eq_sym Hparent)).
Defined.

Lemma get_or_create_twice_witness :
  get_or_create_for_task prompt t1 (after_t1 prompt)
    = (Returned 0, after_t1 prompt).
Proof.
  apply (get_or_create_twice prompt "t1" initial 0 (after_t1 prompt));
    [|reflexivity].
  left. exists t1. split; reflexivity.
Defined.

Lemma page_after_get_or_create_witness :
  ∃ bs, heap (after_t1 prompt) !! 0 = Some bs ∧ page bs ≠ None.
Proof.
  apply (page_after_get_or_create prompt timeout "t1" initial 0
           (after_t1 prompt) (reachable_initial prompt timeout)).
  left. exists t1. split; reflexivity.
Defined.

Lemma creation_failure_propagates_witness :
  (get_or_create_for_task contextless t1 initial).1
    = Raised (DriverError "browser failed to launch") ∧
  pages (get_or_create_for_task contextless t1 initial).2 = [].
Proof.
  destruct (creation_failure_propagates contextless initial
    [EvLog Info "Creating browser state for task"; EvAwait PlaywrightStart []]
    (CreateBrowserContext 7 None (Some "https://example.com") (Some "t1")
       None None)
    [] [] (DriverError "browser failed to launch") eq_refl) as [Htask _].
  destruct (get_or_create_for_task contextless t1 initial) as [o st'] eqn:Hrun.
  assert (trace st' = trace initial ++
    [EvLog Info "Creating browser state for task"; EvAwait PlaywrightStart []] ++
    [EvAwait (CreateBrowserContext 7 None (Some "https://example.com")
                (Some "t1") None None) []]) as Htrace.
  { vm_compute in Hrun. by injection Hrun as _ <-. }
  destruct (Htask t1 o st' Hrun Htrace) as (-> & Hp & _).
  split; [done|]. exact Hp.
Defined.

(** C9 fails.  A workflow run whose identifier is the empty string has a
    session, and a lookup of that identifier finds it; for a task that names
    this workflow run and has no entry of its own the recordings are refused
    with [MissingBrowserState]. *)
Lemma empty_workflow_run_id_is_skipped :
  reachable prompt timeout unnamed_run ∧
  workflow_run_id orphan = Some "" ∧
  get_for_workflow_run "" unnamed_run = (Returned (Some 0), unnamed_run) ∧
  set_video_artifact_for_task orphan [] unnamed_run
    = (Raised (MissingBrowserState "t9"), unnamed_run).
Proof.
  split; [apply reachable_step, reachable_initial|]. by vm_compute.
Qed.

Lemma set_video_artifact_for_task_target_witness :
  (set_video_artifact_for_task t1 [] (after_t1 prompt)).1 = Returned tt.
Proof.
  pose proof (set_video_artifact_for_task_target prompt timeout t1 []
                (after_t1 prompt) (reachable_after_t1 prompt)) as Htarget.
  change (recording_target t1 (after_t1 prompt)) with (Some 0) in Htarget.
  destruct Htarget as (bs & _ & ->). done.
Defined.



End Runs.

(** ** Further properties of the teardown of a task *)

Lemma dict_remove_absent k d : dict_get k d = None → dict_remove k d = d.
Proof.
  induction d as [|[k' v] d IH]; simpl; [done|].
  destruct (decide (k = k')); [done|]. intros H. by rewrite IH.
Qed.

Lemma await_deadline {A} D call (b : list Event → Behaviour A) st o st' :
  await (Some D) call b st = (o, st') →
  clock st ≤ D → o ≠ Pending ∧ clock st ≤ clock st' ≤ D.
Proof.
  unfold await, in_time. intros Hrun Hle.
  destruct (b (trace st)) as [d a|d e|]; [case_bool_decide..|];
    injection Hrun as <- <-; simpl; split; (done || lia).
Qed.

(** An awaited call that would resume exactly at the deadline is cancelled. *)
Lemma await_at_deadline {A} call (b : list Event → Behaviour A) st d a :
  b (trace st) = Finishes d a →
  (await (Some (clock st + d)) call b st).1 = Raised TimeoutError.
Proof.
  intros Hb. unfold await, in_time. rewrite Hb.
  by rewrite bool_decide_eq_false_2 by lia.
Qed.

Section TaskTeardown.

Variable drv : Driver.
Variable BROWSER_CLOSE_TIMEOUT : nat.

Lemma stop_tracing_deadline D bs key st o st' :
  stop_tracing drv (Some D) bs key st = (o, st') →
  clock st ≤ D → o ≠ Pending ∧ clock st ≤ clock st' ≤ D.
Proof.
  unfold stop_tracing.
  destruct (browser_context bs) as [context|];
    [|intros [= <- <-]; split; (done || lia)].
  destruct (truthy _) as [dir|]; [|intros [= <- <-]; split; (done || lia)].
  unfold mbind, M_bind, log.
  destruct (await _ _ _ _) as [o1 st1] eqn:Hawait. intros Hrun Hle.
  destruct (await_deadline _ _ _ _ _ _ Hawait Hle) as [Ho Hc].
  destruct o1 as [[]| |]; injection Hrun as <- <-; simpl; split; (done || lia).
Qed.

Lemma stop_and_close_deadline D r key keep st o st' :
  (bs ← deref r;
   stop_tracing drv (Some D) bs key;;
   BrowserState_close drv (Some D) r keep) st = (o, st') →
  clock st ≤ D → o ≠ Pending ∧ clock st ≤ clock st' ≤ D.
Proof.
  unfold mbind at 1, M_bind at 1, deref. intros Hrun Hle. revert Hrun.
  destruct (heap st !! r) as [bs|]; [|intros [= <- <-]; split; (done || lia)].
  unfold mbind, M_bind, BrowserState_close.
  destruct (stop_tracing _ _ _ _ _) as [o1 st1] eqn:Hstop.
  apply stop_tracing_deadline in Hstop as [Ho1 Hc1]; [|done].
  destruct o1 as [[]|e|]; [|intros [= <- <-]; split; (done || lia)|done].
  intros Hclose. apply await_deadline in Hclose as [Ho2 Hc2]; [|lia].
  split; [done|lia].
Qed.

(** X1.  Whatever the driver does, [cleanup_for_task] never stays suspended:
    it returns or raises, and not later than the close timeout after it was
    called. *)
Theorem cleanup_for_task_bounded key keep st :
  (cleanup_for_task drv BROWSER_CLOSE_TIMEOUT key keep st).1 ≠ Pending ∧
  clock st
    ≤ clock (cleanup_for_task drv BROWSER_CLOSE_TIMEOUT key keep st).2
    ≤ clock st + BROWSER_CLOSE_TIMEOUT.
Proof.
  destruct (cleanup_for_task drv BROWSER_CLOSE_TIMEOUT key keep st)
    as [o st'] eqn:Hrun. simpl.
  revert Hrun. unfold cleanup_for_task.
  unfold mbind at 1 2, M_bind at 1 2, log at 1, pages_pop. simpl.
  set (st0 := set_pages _ _). assert (clock st0 = clock st) as Hc0 by done.
  destruct (dict_get key (pages st)) as [r|].
  - unfold mbind at 1 2, M_bind at 1 2, try_except_TimeoutError.
    match goal with |- context [asyncio_timeout ?T ?f st0] =>
      destruct (asyncio_timeout T f st0) as [o1 st1] eqn:Hbody end.
    apply stop_and_close_deadline in Hbody as [Ho Hc]; [|lia].
    rewrite Hc0 in Hc. unfold log, mret, M_ret.
    destruct o1 as [[]|[]|]; intros [= <- <-]; simpl; (split; [done|lia]).
  - unfold_prims. unfold try_except_TimeoutError. intros [= <- <-]. simpl.
    split; [done|lia].
Qed.

End TaskTeardown.

Section TaskTeardownMore.

Variable drv : Driver.
Variable BROWSER_CLOSE_TIMEOUT : nat.

(** X2.  Whatever its outcome, [cleanup_for_task] takes the entry of its key
    out of the dictionary and nothing else: a lookup of the key finds
    nothing, every other key refers to what it referred to (also the other
    keys of the session that was closed), and no object changes. *)
Theorem cleanup_for_task_removes_only_key key keep st :
  let st' := (cleanup_for_task drv BROWSER_CLOSE_TIMEOUT key keep st).2 in
  get_for_workflow_run key st' = (Returned None, st') ∧
  (∀ k, k ≠ key → dict_get k (pages st') = dict_get k (pages st)) ∧
  heap st' = heap st.
Proof.
  destruct (cleanup_for_task drv BROWSER_CLOSE_TIMEOUT key keep st)
    as [o st'] eqn:Hrun. simpl.
  apply cleanup_for_task_frame in Hrun as [Hp Hh].
  rewrite get_for_workflow_run_eq, Hp, dict_get_remove_eq.
  split; [done|]. split; [|done]. intros k Hk. by apply dict_get_remove_ne.
Qed.

Lemma cleanup_for_task_unregistered key keep st :
  dict_get key (pages st) = None →
  cleanup_for_task drv BROWSER_CLOSE_TIMEOUT key keep st =
    (Returned None,
     add_event (EvLog Info "Task is cleaned up")
       (add_event (EvLog Info "Cleaning up for task") st)).
Proof.
  intros Hkey. unfold cleanup_for_task, try_except_TimeoutError.
  unfold_prims. simpl. rewrite Hkey. simpl.
  by rewrite (dict_remove_absent _ _ Hkey).
Qed.

(** X3.  For a key that has no entry [cleanup_for_task] awaits nothing and
    raises nothing: it returns [None] and only logs its two lines; the
    dictionary, the objects and the clock are as before. *)
Theorem cleanup_for_task_absent key keep st :
  dict_get key (pages st) = None →
  cleanup_for_task drv BROWSER_CLOSE_TIMEOUT key keep st =
    (Returned None,
     add_event (EvLog Info "Task is cleaned up")
       (add_event (EvLog Info "Cleaning up for task") st)).
Proof. apply cleanup_for_task_unregistered. Qed.

(** X4.  A second [cleanup_for_task] of the same key, whatever the first one
    did, returns [None] and awaits nothing. *)
Theorem cleanup_for_task_twice key keep keep' st :
  let st' := (cleanup_for_task drv BROWSER_CLOSE_TIMEOUT key keep st).2 in
  cleanup_for_task drv BROWSER_CLOSE_TIMEOUT key keep' st' =
    (Returned None,
     add_event (EvLog Info "Task is cleaned up")
       (add_event (EvLog Info "Cleaning up for task") st')).
Proof.
  destruct (cleanup_for_task drv BROWSER_CLOSE_TIMEOUT key keep st)
    as [o st'] eqn:Hrun. simpl.
  apply cleanup_for_task_frame in Hrun as [Hp _].
  apply cleanup_for_task_unregistered. rewrite Hp. apply dict_get_remove_eq.
Qed.

(** X5.  When the trace stop, if any, and the close complete before the
    deadline, that is in less than the close timeout taken together,
    [cleanup_for_task] returns the session it removed, has
    awaited its close once and that of no other session, has stopped the
    trace, when the session has a context and a trace directory, to
    [<trace dir>/<key>.zip], and ends with the line that the task is
    cleaned up; no timeout is logged. *)
Theorem cleanup_for_task_completes key keep st r bs :
  dict_get key (pages st) = Some r →
  heap st !! r = Some bs →
  teardown_in_time drv BROWSER_CLOSE_TIMEOUT key keep st r bs →
  ∃ st' events,
    cleanup_for_task drv BROWSER_CLOSE_TIMEOUT key keep st
      = (Returned (Some r), st') ∧
    pages st' = dict_remove key (pages st) ∧
    trace st' = trace st ++ events ∧
    (∀ r', close_calls r' events = if decide (r' = r) then 1 else 0) ∧
    (∀ context dir,
       browser_context bs = Some context →
       truthy (traces_dir (browser_artifacts bs)) = Some dir →
       EvAwait (TracingStop context (dir +:+ "/" +:+ key +:+ ".zip"))
         (dict_remove key (pages st)) ∈ events) ∧
    last events = Some (EvLog Info "Task is cleaned up") ∧
    EvLog Warning "Timeout on task cleanup" ∉ events.
Proof.
  intros Hkey Hbs Hfast. unfold teardown_in_time in Hfast.
  unfold cleanup_for_task, asyncio_timeout, try_except_TimeoutError,
    stop_tracing, BrowserState_close.
  unfold_prims. simpl. rewrite Hkey. simpl. rewrite Hbs. simpl.
  assert (∀ r', length (List.filter (is_close_of r')
      [EvAwait (BrowserStateClose r (Some keep)) (dict_remove key (pages st))])
    = if decide (r' = r) then 1 else 0) as Hone.
  { intros r'. simpl.
    case_decide; [rewrite bool_decide_eq_true_2|rewrite bool_decide_eq_false_2];
      done. }
  destruct (browser_context bs) as [context|];
    [destruct (truthy (traces_dir (browser_artifacts bs))) as [dir|]|].
  - destruct (drv_tracing_stop drv _ _ _) as [d []|d e|]; [|done..].
    destruct Hfast as [Hd Hfast]. simpl.
    rewrite bool_decide_eq_true_2 by lia. simpl.
    match type of Hfast with context [?h ++ [?a; ?b]] =>
      replace (h ++ [a; b]) with ((h ++ [a]) ++ [b]) in Hfast
        by (by rewrite <- app_assoc) end.
    destruct (drv_close drv _ _ _) as [d' []|d' e'|]; [|done..].
    simpl in Hfast. simpl. rewrite bool_decide_eq_true_2 by lia. simpl.
    eexists _, [_; _; _; _; _]. split; [done|]. simpl.
    split; [done|]. split; [by rewrite <- !app_assoc|].
    split; [apply Hone|]. split; [|split; [done|]].
    + intros ?? [= <-] [= <-]. apply list_elem_of_further, list_elem_of_here.
    + intros Hin. repeat (apply elem_of_cons in Hin as [Hin|Hin]; [done|]).
      by apply elem_of_nil in Hin.
  - destruct (drv_close drv _ _ _) as [d' []|d' e'|]; [|done..].
    simpl in Hfast. simpl. rewrite bool_decide_eq_true_2 by lia. simpl.
    eexists _, [_; _; _]. split; [done|]. simpl.
    split; [done|]. split; [by rewrite <- !app_assoc|].
    split; [apply Hone|]. split; [done|split; [done|]].
    intros Hin. repeat (apply elem_of_cons in Hin as [Hin|Hin]; [done|]).
    by apply elem_of_nil in Hin.
  - destruct (drv_close drv _ _ _) as [d' []|d' e'|]; [|done..].
    simpl in Hfast. simpl. rewrite bool_decide_eq_true_2 by lia. simpl.
    eexists _, [_; _; _]. split; [done|]. simpl.
    split; [done|]. split; [by rewrite <- !app_assoc|].
    split; [apply Hone|]. split; [done|split; [done|]].
    intros Hin. repeat (apply elem_of_cons in Hin as [Hin|Hin]; [done|]).
    by apply elem_of_nil in Hin.
Qed.

(** X6.  A failure of the trace stop that is not a timeout and comes
    strictly before the deadline is not caught: [cleanup_for_task] raises
    it.  The entry is gone from the dictionary all the same, and the close
    of the session has not been awaited. *)
Theorem cleanup_for_task_trace_failure key keep st r bs context dir d e :
  dict_get key (pages st) = Some r →
  heap st !! r = Some bs →
  browser_context bs = Some context →
  truthy (traces_dir (browser_artifacts bs)) = Some dir →
  drv_tracing_stop drv (trace st ++ [EvLog Info "Cleaning up for task"])
    context (dir +:+ "/" +:+ key +:+ ".zip") = Fails d e →
  d < BROWSER_CLOSE_TIMEOUT →
  e ≠ TimeoutError →
  ∃ st' events,
    cleanup_for_task drv BROWSER_CLOSE_TIMEOUT key keep st = (Raised e, st') ∧
    pages st' = dict_remove key (pages st) ∧
    trace st' = trace st ++ events ∧
    ∀ r', close_calls r' events = 0.
Proof.
  intros Hkey Hbs Hctx Hdir Hfail Hd He.
  unfold cleanup_for_task, asyncio_timeout, try_except_TimeoutError,
    stop_tracing, BrowserState_close.
  unfold_prims. simpl. rewrite Hkey. simpl. rewrite Hbs. simpl.
  rewrite Hctx, Hdir. simpl. rewrite Hfail. simpl.
  rewrite bool_decide_eq_true_2 by lia.
  simpl. eexists _, [_; _].
  destruct e; try done; (split; [done|]); simpl;
    (split; [done|]); (split; [by rewrite <- !app_assoc|done]).
Qed.

(** X7.  When the key of a task is torn down while the key of its workflow
    run still refers to a session, the next [get_or_create_for_task] for the
    task hands out that session again, whether or not the teardown has just
    closed it. *)
Theorem get_or_create_for_task_after_cleanup task run keep st r :
  workflow_run_id task = Some run →
  run ≠ task_id task →
  dict_get run (pages st) = Some r →
  let st' :=
    (cleanup_for_task drv BROWSER_CLOSE_TIMEOUT (task_id task) keep st).2 in
  (get_or_create_for_task drv task st').1 = Returned r.
Proof.
  intros Hrun Hne Hshared.
  destruct (cleanup_for_task drv BROWSER_CLOSE_TIMEOUT (task_id task) keep st)
    as [o st'] eqn:Hclean.
  simpl. apply cleanup_for_task_frame in Hclean as [Hp _].
  destruct (get_or_create_for_task drv task st') as [o' st''] eqn:Hcall.
  simpl. apply get_or_create_for_task_cases in Hcall
    as [(r' & Hk & _)|[(r' & _ & Hfind & -> & _)|(_ & Hfind & _)]];
    rewrite Hp in *; rewrite ?Hrun in *; simpl in *.
  - by rewrite dict_get_remove_eq in Hk.
  - rewrite dict_get_remove_ne in Hfind by done. congruence.
  - rewrite dict_get_remove_ne in Hfind by done. congruence.
Qed.

End TaskTeardownMore.

(** ** Further properties of the shutdown and of the teardown of a
       workflow run *)

Section GroupTeardown.

Variable drv : Driver.

(** X8.  When a release does not return, [close] stops there: it raises
    what the release raised, or stays suspended, and the dictionary is not
    reset; every entry is still registered. *)
Theorem close_interrupted st :
  (close drv st).1 ≠ Returned tt →
  pages (close drv st).2 = pages st ∧ heap (close drv st).2 = heap st.
Proof.
  destruct (close drv st) as [o st'] eqn:Hrun. simpl. revert Hrun.
  unfold close. unfold mbind, M_bind, log, get_pages, put_pages. simpl.
  destruct (close_each _ _ _) as [o1 st1] eqn:Hclose.
  apply close_each_frame in Hclose as [Hp Hh]. simpl in *.
  destruct o1 as [[]| |]; intros [= <- <-]; simpl; done.
Qed.

(** X9.  When the key of the workflow run has no entry,
    [cleanup_for_workflow_run] awaits nothing: no session is closed, the
    entries of the given tasks are removed all the same, and [None] is
    returned. *)
Theorem cleanup_for_workflow_run_absent key ks keep st :
  dict_get key (pages st) = None →
  cleanup_for_workflow_run drv key ks keep st =
    (Returned None,
     add_event (EvLog Info "Workflow run is cleaned up")
       (set_pages (foldl (λ d k, dict_remove k d) (pages st) ks)
          (add_event (EvLog Info "Cleaning up for workflow run") st))).
Proof.
  intros Hkey. unfold cleanup_for_workflow_run.
  unfold mbind, M_bind, log at 1, pages_pop. simpl. rewrite Hkey.
  unfold mret at 1, M_ret at 1. rewrite pop_each_eq.
  unfold log, mret, M_ret. simpl. by rewrite (dict_remove_absent _ _ Hkey).
Qed.

(** X10.  When the trace stop or the close of the workflow run's session
    raises or never returns, [cleanup_for_workflow_run] has removed the key
    of the workflow run only: the entries of the tasks are still
    registered. *)
Theorem cleanup_for_workflow_run_interrupted key ks keep st :
  (∀ x, (cleanup_for_workflow_run drv key ks keep st).1 ≠ Returned x) →
  let st' := (cleanup_for_workflow_run drv key ks keep st).2 in
  pages st' = dict_remove key (pages st) ∧
  (∀ k, k ≠ key → dict_get k (pages st') = dict_get k (pages st)) ∧
  heap st' = heap st.
Proof.
  destruct (cleanup_for_workflow_run drv key ks keep st) as [o st'] eqn:Hrun.
  simpl. intros Hno.
  assert (pages st' = dict_remove key (pages st) ∧ heap st' = heap st)
    as [Hp Hh].
  { revert Hrun. unfold cleanup_for_workflow_run.
    unfold mbind at 1 2, M_bind at 1 2, log at 1, pages_pop. simpl.
    unfold mbind at 1, M_bind at 1.
    destruct (dict_get key (pages st)) as [r|].
    - match goal with |- (let (_, _) := ?m in _) = _ → _ =>
        destruct m as [o1 st1] eqn:Hbody end.
      apply stop_and_close_frame in Hbody as [Hp Hh].
      destruct o1 as [[]|e|]; [|by intros [= <- <-]..].
      unfold mbind, M_bind. rewrite pop_each_eq. unfold log, mret, M_ret.
      intros [= <- <-]. by destruct (Hno (Some r)).
    - unfold mret at 1, M_ret at 1. unfold mbind, M_bind.
      rewrite pop_each_eq. unfold log, mret, M_ret.
      intros [= <- <-]. by destruct (Hno None). }
  split; [done|]. split; [|done].
  intros k Hk. rewrite Hp. by apply dict_get_remove_ne.
Qed.

End GroupTeardown.

(** ** Further properties of creation and of the reachable states *)

Section CreationMore.

Variable drv : Driver.
Variable BROWSER_CLOSE_TIMEOUT : nat.

Local Abbreviation run_op := (run_op drv BROWSER_CLOSE_TIMEOUT).
Local Abbreviation reachable := (reachable drv BROWSER_CLOSE_TIMEOUT).

Lemma update_quiet r f st o st' :
  update r f st = (o, st') →
  pages st' = pages st ∧ clock st' = clock st ∧ trace st' = trace st.
Proof. unfold update. destruct (heap st !! r); by intros [= <- <-]. Qed.

Lemma read_videos_quiet fs r todo : ∀ i st o st',
  read_videos fs r i todo st = (o, st') →
  pages st' = pages st ∧ clock st' = clock st ∧ trace st' = trace st.
Proof.
  induction todo as [|v todo IH]; intros i st o st'; simpl.
  { by intros [= <- <-]. }
  unfold mbind at 1, M_bind at 1.
  match goal with |- (let (_, _) := ?m in _) = _ → _ =>
    destruct m as [o1 st1] eqn:Hstep end.
  assert (pages st1 = pages st ∧ clock st1 = clock st ∧ trace st1 = trace st)
    as (Hp & Hc & Ht).
  { revert Hstep.
    destruct (truthy (video_path v)) as [path|]; [|by intros [= <- <-]].
    destruct (os_path_exists fs path); [|by intros [= <- <-]].
    unfold mbind, M_bind, open_read.
    destruct (fs path) as [[content|]|]; [|by intros [= <- <-]..].
    unfold mret, M_ret. apply update_quiet. }
  destruct o1 as [[]| |]; [|by intros [= <- <-]..].
  intros Hrest. apply IH in Hrest as (Hp' & Hc' & Ht').
  repeat split; congruence.
Qed.

(** X11.  The lookup, the attaching of recordings and the two retrievals
    contain no [await].  Whatever its outcome, such a call leaves the
    dictionary exactly as it was: no key is added, removed or bound to
    another session.  It awaits no call of the driver, and the clock against
    which deadlines are measured does not move. *)
Theorem registry_kept_without_await op st :
  awaits_nothing op = true →
  pages (run_op op st) = pages st ∧
  clock (run_op op st) = clock st ∧
  ∃ events,
    trace (run_op op st) = trace st ++ events ∧
    ∀ call registry, EvAwait call registry ∉ events.
Proof.
  intros Hop.
  assert (∀ st' : State,
    pages st' = pages st → clock st' = clock st → trace st' = trace st →
    pages st' = pages st ∧ clock st' = clock st ∧
    ∃ events, trace st' = trace st ++ events ∧
      ∀ call registry, EvAwait call registry ∉ events) as Hquiet.
  { intros st' Hp Hc Ht. do 2 (split; [done|]). exists [].
    split; [by rewrite app_nil_r|]. intros ?? Hin. by apply elem_of_nil in Hin. }
  assert (∀ msg,
    pages (add_event (EvLog Warning msg) st) = pages st ∧
    clock (add_event (EvLog Warning msg) st) = clock st ∧
    ∃ events,
      trace (add_event (EvLog Warning msg) st) = trace st ++ events ∧
      ∀ call registry, EvAwait call registry ∉ events) as Hwarned.
  { intros msg. do 2 (split; [done|]). exists [EvLog Warning msg].
    split; [done|]. intros ?? Hin.
    apply elem_of_cons in Hin as [Hin|Hin]; [done|by apply elem_of_nil in Hin]. }
  destruct op as [task|run url|k'|task a|fs r'|fs r'| |k' keep|k' ks keep];
    try done; simpl.
  - rewrite get_for_workflow_run_eq. by apply Hquiet.
  - destruct (set_video_artifact_for_task _ _ _) as [o st'] eqn:Hrun.
    simpl. revert Hrun. unfold set_video_artifact_for_task.
    unfold mbind at 1, M_bind at 1, get_pages.
    assert (∀ k,
      (r ← pages_getitem k; update r (with_video_artifacts a)) st = (o, st') →
      pages st' = pages st ∧ clock st' = clock st ∧ trace st' = trace st)
      as Hattach.
    { intros k. unfold mbind, M_bind, pages_getitem.
      destruct (dict_get k (pages st)); [apply update_quiet|].
      by intros [= <- <-]. }
    repeat case_match; intros Hrun; apply Hquiet;
      try (by apply Hattach in Hrun as (? & ? & ?));
      by injection Hrun as <- <-.
  - destruct (get_video_artifacts _ _ _) as [o st'] eqn:Hrun.
    simpl. revert Hrun. unfold get_video_artifacts.
    unfold mbind at 1, M_bind at 1, deref at 1.
    destruct (heap st !! r') as [bs|]; [|intros [= <- <-]; by apply Hquiet].
    destruct (video_artifacts (browser_artifacts bs)) as [|v vs].
    { unfold_prims. intros [= <- <-]. apply Hwarned. }
    unfold mbind at 1, M_bind at 1.
    destruct (read_videos _ _ _ _ _) as [o1 st1] eqn:Hread.
    apply read_videos_quiet in Hread as (Hp & Hc & Ht).
    destruct o1 as [[]| |]; [|intros [= <- <-]; by apply Hquiet..].
    unfold_prims. destruct (heap st1 !! r'); intros [= <- <-]; by apply Hquiet.
  - destruct (get_har_data _ _ _) as [o st'] eqn:Hrun.
    simpl. revert Hrun. unfold get_har_data, open_read. unfold_prims.
    destruct r' as [r'|]; [|intros [= <- <-]; apply Hwarned].
    destruct (heap st !! r') as [bs|]; [|intros [= <- <-]; by apply Hquiet].
    destruct (truthy _) as [path|]; [|intros [= <- <-]; apply Hwarned].
    destruct (os_path_exists fs path); [|intros [= <- <-]; apply Hwarned].
    destruct (fs path) as [[content|]|]; intros [= <- <-]; by apply Hquiet.
Qed.

Lemma dict_set_pair k k' v d :
  dict_get k d = None → dict_get k' d = None →
  dict_set k' v (dict_set k v d)
    = d ++ (k, v) :: (if decide (k' = k) then [] else [(k', v)]) ∧
  dict_get k (dict_set k' v (dict_set k v d)) = Some v ∧
  dict_get k' (dict_set k' v (dict_set k v d)) = Some v.
Proof.
  intros Hk Hk'. split; [|split; [|apply dict_get_set_eq]].
  - destruct (decide (k' = k)) as [->|Hne].
    + by rewrite dict_set_twice, dict_set_fresh.
    + rewrite (dict_set_fresh k' v), (dict_set_fresh k v), <- app_assoc;
        [done..|]. by rewrite dict_get_set_ne.
  - destruct (decide (k' = k)) as [->|Hne]; [apply dict_get_set_eq|].
    rewrite dict_get_set_ne by done. apply dict_get_set_eq.
Qed.

Lemma create_with_page_prompt p u t w o p' u' t' w' o' {A} (k : Ref → M A) st :
  creates_promptly drv →
  ∃ st1 bs,
    (_create_browser_state drv p u t w o ≫= λ bs,
       BrowserState_get_or_create_page drv bs u' p' t' w' o' ≫= λ _, k bs) st
    = k (length (heap st)) st1 ∧ pages st1 = pages st ∧
    heap st1 = heap st ++ [bs] ∧ is_Some (page bs).
Proof.
  intros (Hstart & Hcontext & Hpage).
  unfold _create_browser_state, BrowserState_get_or_create_page.
  unfold_prims. simpl.
  destruct (Hstart (trace st)) as (d & pw & ->). simpl.
  match goal with |- context [drv_create_browser_context drv ?h ?a ?b ?c ?e ?f ?g] =>
    destruct (Hcontext h a b c e f g) as (d2 & [[ctx arts] cl] & ->) end.
  simpl. rewrite lookup_snoc. simpl.
  match goal with |- context [drv_get_or_create_page drv ?h ?a ?b ?c ?e ?f ?g] =>
    destruct (Hpage h a b c e f g) as (d3 & pg & ->) end.
  simpl. rewrite lookup_snoc, insert_snoc.
  eexists _, _. split; [done|]. simpl. split; [done|]. split; [done|].
  simpl. eauto.
Qed.

(** X12.  When the driver completes every call, a task that has no entry and
    whose workflow-run id is not registered gets a new session with a page.
    It is registered last in the dictionary under the task id, and also
    under the workflow-run id when this id is not empty; a lookup of either
    key then gives the new session. *)
Theorem get_or_create_for_task_creates task st :
  creates_promptly drv →
  dict_get (task_id task) (pages st) = None →
  dict_find (workflow_run_id task) (pages st) = None →
  ∃ st' bs,
    get_or_create_for_task drv task st = (Returned (length (heap st)), st') ∧
    heap st' = heap st ++ [bs] ∧ page bs ≠ None ∧
    pages st' =
      pages st ++ (task_id task, length (heap st)) ::
        match truthy (workflow_run_id task) with
        | Some run =>
            if decide (run = task_id task) then []
            else [(run, length (heap st))]
        | None => []
        end ∧
    get_for_workflow_run (task_id task) st'
      = (Returned (Some (length (heap st))), st') ∧
    ∀ run, truthy (workflow_run_id task) = Some run →
      get_for_workflow_run run st' = (Returned (Some (length (heap st))), st').
Proof.
  intros Hprompt Htask Hfind.
  unfold get_or_create_for_task.
  unfold get_pages. unfold mbind at 1, M_bind at 1. rewrite Htask, Hfind.
  unfold mbind at 1, M_bind at 1. unfold log at 1.
  match goal with |- context [(_create_browser_state _ ?p ?u ?t ?w ?o ≫= λ bs,
      BrowserState_get_or_create_page _ bs ?u' ?p' ?t' ?w' ?o' ≫= λ _, @?k bs) ?s] =>
    destruct (create_with_page_prompt p u t w o p' u' t' w' o' k s Hprompt)
      as (st1 & created & -> & Hpages & Hheap & Hsome)
  end.
  simpl in Hpages, Hheap.
  assert (page created ≠ None) as Hpage by (by destruct Hsome as [pg ->]).
  unfold_prims. rewrite Hpages.
  destruct (truthy (workflow_run_id task)) as [run|] eqn:Htruthy; simpl.
  - apply truthy_Some in Htruthy as [Hrun _]. rewrite Hrun in Hfind.
    simpl in Hfind.
    destruct (dict_set_pair (task_id task) run (length (heap st)) (pages st)
                Htask Hfind) as (Hlist & Hget & Hget').
    eexists _, created. split; [done|]. simpl.
    split; [done|]. split; [done|]. split; [done|].
    rewrite get_for_workflow_run_eq. simpl. rewrite Hget. split; [done|].
    intros ? [= <-]. rewrite get_for_workflow_run_eq. simpl. by rewrite Hget'.
  - eexists _, created. split; [done|]. simpl. split; [done|]. split; [done|].
    rewrite get_for_workflow_run_eq. simpl.
    rewrite dict_get_set_eq, (dict_set_fresh _ _ _ Htask). done.
Qed.

(** X13.  When the driver completes every call, a workflow run that has no
    entry gets a new session with a page, registered last in the dictionary
    under the id of the workflow run and under no other key. *)
Theorem get_or_create_for_workflow_run_creates run url st :
  creates_promptly drv →
  dict_get (run_workflow_run_id run) (pages st) = None →
  ∃ st' bs,
    get_or_create_for_workflow_run drv run url st
      = (Returned (length (heap st)), st') ∧
    heap st' = heap st ++ [bs] ∧ page bs ≠ None ∧
    pages st' = pages st ++ [(run_workflow_run_id run, length (heap st))] ∧
    get_for_workflow_run (run_workflow_run_id run) st'
      = (Returned (Some (length (heap st))), st').
Proof.
  intros Hprompt Hrun.
  unfold get_or_create_for_workflow_run.
  unfold get_pages. unfold mbind at 1, M_bind at 1. rewrite Hrun.
  unfold mbind at 1, M_bind at 1. unfold log at 1.
  match goal with |- context [(_create_browser_state _ ?p ?u ?t ?w ?o ≫= λ bs,
      BrowserState_get_or_create_page _ bs ?u' ?p' ?t' ?w' ?o' ≫= λ _, @?k bs) ?s] =>
    destruct (create_with_page_prompt p u t w o p' u' t' w' o' k s Hprompt)
      as (st1 & created & -> & Hpages & Hheap & Hsome)
  end.
  simpl in Hpages, Hheap.
  assert (page created ≠ None) as Hpage by (by destruct Hsome as [pg ->]).
  unfold_prims. rewrite Hpages. eexists _, created. split; [done|]. simpl.
  split; [done|]. split; [done|].
  rewrite get_for_workflow_run_eq. simpl.
  rewrite (dict_set_fresh _ _ _ Hrun). split; [done|].
  by rewrite <- (dict_set_fresh _ _ _ Hrun), dict_get_set_eq.
Qed.

(** X21.  In a state reached by the public operations, a creation that
    does not return, because a call of the driver raises or never completes,
    leaves the dictionary exactly as it was; at most one object has been
    made, and no key of the dictionary refers to it. *)
Theorem get_or_create_interrupted st :
  reachable st →
  (∀ task,
     (∀ r, (get_or_create_for_task drv task st).1 ≠ Returned r) →
     pages (get_or_create_for_task drv task st).2 = pages st ∧
     (heap (get_or_create_for_task drv task st).2 = heap st ∨
      ∃ bs, heap (get_or_create_for_task drv task st).2 = heap st ++ [bs]) ∧
     fan_in (length (heap st))
       (pages (get_or_create_for_task drv task st).2) = 0) ∧
  (∀ run url,
     (∀ r, (get_or_create_for_workflow_run drv run url st).1 ≠ Returned r) →
     pages (get_or_create_for_workflow_run drv run url st).2 = pages st ∧
     (heap (get_or_create_for_workflow_run drv run url st).2 = heap st ∨
      ∃ bs,
        heap (get_or_create_for_workflow_run drv run url st).2
          = heap st ++ [bs]) ∧
     fan_in (length (heap st))
       (pages (get_or_create_for_workflow_run drv run url st).2) = 0).
Proof.
  intros Hready%reachable_ready.
  pose proof (fan_in_unallocated st (length (heap st)) Hready (le_n _))
    as Hfresh.
  split.
  - intros task.
    destruct (get_or_create_for_task drv task st) as [o st'] eqn:Hrun.
    simpl. intros Hno.
    apply get_or_create_for_task_cases in Hrun
      as [(r & _ & -> & _)|[(r & _ & _ & -> & _)
         |(_ & _ & [(-> & _)|(_ & Hp & Hh)])]];
      [by destruct (Hno r)..|by destruct (Hno (length (heap st)))|].
    by rewrite Hp.
  - intros run url.
    destruct (get_or_create_for_workflow_run drv run url st)
      as [o st'] eqn:Hrun.
    simpl. intros Hno.
    apply get_or_create_for_workflow_run_cases in Hrun
      as [(r & _ & -> & _)|(_ & [(-> & _)|(_ & Hp & Hh)])];
      [by destruct (Hno r)|by destruct (Hno (length (heap st)))|].
    by rewrite Hp.
Qed.

(** X14.  In every state reached by the public operations, whatever the
    driver did, each key of the dictionary refers to an object that exists
    and whose page handle is not [None]. *)
Theorem registered_sessions_have_pages st k r :
  reachable st →
  dict_get k (pages st) = Some r →
  ∃ bs, heap st !! r = Some bs ∧ page bs ≠ None.
Proof.
  intros Hreach%reachable_ready Hk.
  destruct (registry_ready_get _ _ _ Hreach Hk) as (bs & Hr & [pg Hp]).
  exists bs. by rewrite Hp.
Qed.

End CreationMore.

(** ** Further properties of the recordings, of the network capture and of
       the singleton *)

Lemma retrieved_twice fs v : retrieved fs (retrieved fs v) = retrieved fs v.
Proof.
  unfold retrieved. destruct (truthy (video_path v)) as [path|] eqn:Hpath;
    [|by rewrite Hpath].
  destruct (fs path) as [[content|]|] eqn:Hfs; simpl; rewrite ?Hpath, ?Hfs; done.
Qed.

Lemma retrieved_path fs v : video_path (retrieved fs v) = video_path v.
Proof. unfold retrieved. by repeat case_match. Qed.

Lemma no_directory_retrieved fs vs :
  no_directory fs vs → no_directory fs (map (retrieved fs) vs).
Proof.
  unfold no_directory. rewrite Forall_map. intros Hvs.
  eapply Forall_impl; [exact Hvs|].
  intros v Hv p. simpl. rewrite retrieved_path. apply Hv.
Qed.

Lemma get_video_artifacts_retrieves fs r st bs :
  heap st !! r = Some bs →
  no_directory fs (video_artifacts (browser_artifacts bs)) →
  ∃ st' bs',
    get_video_artifacts fs r st =
      (Returned (map (retrieved fs) (video_artifacts (browser_artifacts bs))),
       st') ∧
    heap st' !! r = Some bs' ∧
    video_artifacts (browser_artifacts bs')
      = map (retrieved fs) (video_artifacts (browser_artifacts bs)) ∧
    pages st' = pages st.
Proof.
  intros Hr Hfiles. unfold get_video_artifacts.
  unfold mbind at 1, M_bind at 1, deref at 1. rewrite Hr.
  destruct (video_artifacts (browser_artifacts bs)) as [|v vs] eqn:Hlist.
  { exists (add_event (EvLog Warning "Video data not found for task") st), bs.
    unfold_prims. by rewrite Hlist. }
  destruct (read_videos_retrieves fs r (v :: vs) [] st bs Hr Hlist Hfiles)
    as (st' & bs' & Hread & Hr' & Hlist' & Hp & _).
  change (read_videos fs r 0 (v :: vs) st = (Returned tt, st')) in Hread.
  exists st', bs'. unfold mbind, M_bind. rewrite Hread.
  unfold deref, mret, M_ret. by rewrite Hr', Hlist'.
Qed.

Section ArtifactsMore.

Variable drv : Driver.
Variable BROWSER_CLOSE_TIMEOUT : nat.

Local Abbreviation reachable := (reachable drv BROWSER_CLOSE_TIMEOUT).



(** X16.  Retrieving the recordings of a session a second time from the
    same storage returns the same descriptors as the first time.  (No path
    is a directory.) *)
Theorem retrieve_twice fs r st bs :
  heap st !! r = Some bs →
  no_directory fs (video_artifacts (browser_artifacts bs)) →
  (get_video_artifacts fs r (get_video_artifacts fs r st).2).1
    = (get_video_artifacts fs r st).1.
Proof.
  intros Hr Hfiles.
  destruct (get_video_artifacts_retrieves fs r st bs Hr Hfiles)
    as (st' & bs' & -> & Hr' & Hlist' & _). simpl.
  assert (no_directory fs (video_artifacts (browser_artifacts bs')))
    as Hfiles' by (rewrite Hlist'; by apply no_directory_retrieved).
  destruct (get_video_artifacts_retrieves fs r st' bs' Hr' Hfiles')
    as (st'' & ? & -> & _).
  simpl. rewrite Hlist', map_map. f_equal. apply map_ext.
  intros v. apply retrieved_twice.
Qed.

(** X17.  For a session whose network-capture path names a file,
    [get_har_data] returns the content of the file and neither logs nor
    changes anything. *)
Theorem get_har_data_reads_file fs r st bs path content :
  heap st !! r = Some bs →
  truthy (har_path (browser_artifacts bs)) = Some path →
  fs path = Some (File content) →
  get_har_data fs (Some r) st = (Returned content, st).
Proof.
  intros Hr Hpath Hfile. unfold get_har_data, os_path_exists, open_read.
  unfold_prims. by rewrite Hr, Hpath, Hfile.
Qed.

End ArtifactsMore.

(** X20.  [BrowserManager()] gives one manager: once it has been called,
    every further call, however many there were in between, returns the
    same object and makes no new one. *)
Theorem BrowserManager_new_once cls n :
  BrowserManager_new
    (Nat.iter n (λ c, (BrowserManager_new c).2) (BrowserManager_new cls).2)
    = ((BrowserManager_new cls).1, (BrowserManager_new cls).2).
Proof.
  assert (BrowserManager_new (BrowserManager_new cls).2
          = ((BrowserManager_new cls).1, (BrowserManager_new cls).2)) as Htwice.
  { unfold BrowserManager_new.
    destruct (instance cls) eqn:Hinstance; simpl; by rewrite ?Hinstance. }
  induction n as [|n IH]; simpl; [done|]. by rewrite IH.
Qed.

(** ** The further properties on concrete runs *)

Section MoreRuns.

Import Scenario Cases.

Lemma prompt_creates_promptly : creates_promptly prompt.
Proof. repeat split; intros; by eexists _, _. Qed.

Lemma close_once_per_key_witness :
  ∃ st' events,
    close prompt (after_t1 prompt) = (Returned tt, st') ∧ pages st' = [] ∧
    trace st' = trace (after_t1 prompt) ++ events ∧
    ∀ r, close_calls r events = fan_in r (pages (after_t1 prompt)).
Proof.
  apply (close_once_per_key prompt (after_t1 prompt)).
  intros h r. by exists 1.
Defined.

Lemma cleanup_for_workflow_run_completes_witness :
  ∃ st' events,
    cleanup_for_workflow_run prompt "w1" ["t1"] true (after_t1 prompt)
      = (Returned (Some 0), st') ∧
    trace st' = trace (after_t1 prompt) ++ events ∧
    (∀ r', close_calls r' events = if decide (r' = 0) then 1 else 0) ∧
    dict_get "w1" (pages st') = None ∧
    ∀ k, k ∈ ["t1"] → dict_get k (pages st') = None.
Proof.
  apply (cleanup_for_workflow_run_completes prompt "w1" ["t1"] true
           (after_t1 prompt) 0 session eq_refl eq_refl).
  - intros h context path. by exists 1.
  - intros h. by exists 1.
Defined.

Lemma cleanup_for_task_absent_witness :
  cleanup_for_task prompt timeout "t1" true initial =
    (Returned None,
     add_event (EvLog Info "Task is cleaned up")
       (add_event (EvLog Info "Cleaning up for task") initial)).
Proof.
  apply (cleanup_for_task_absent prompt timeout "t1" true initial).
  reflexivity.
Defined.

Lemma cleanup_for_task_completes_witness :
  teardown_in_time prompt timeout "t1" true (after_t1 prompt) 0 session ∧
  ∃ st',
    cleanup_for_task prompt timeout "t1" true (after_t1 prompt)
      = (Returned (Some 0), st') ∧
    pages st' = [("w1", 0)].
Proof.
  assert (teardown_in_time prompt timeout "t1" true (after_t1 prompt) 0
            session) as Hfast by (vm_compute; lia).
  split; [done|].
  destruct (cleanup_for_task_completes prompt timeout "t1" true
              (after_t1 prompt) 0 session eq_refl eq_refl Hfast)
    as (st' & events & Hrun & Hp & _).
  by exists st'.
Defined.

Lemma cleanup_for_task_trace_failure_witness :
  ∃ st',
    cleanup_for_task untraceable timeout "t1" true (after_t1 untraceable)
      = (Raised (DriverError "disk full"), st') ∧
    pages st' = [("w1", 0)].
Proof.
  destruct (cleanup_for_task_trace_failure untraceable timeout "t1" true
              (after_t1 untraceable) 0 session 8 "/traces" 1
              (DriverError "disk full")
              eq_refl eq_refl eq_refl eq_refl eq_refl)
    as (st' & events & Hrun & Hp & _); [vm_compute; lia|done|].
  by exists st'.
Defined.

Lemma get_or_create_for_task_after_cleanup_witness :
  (get_or_create_for_task prompt t1
     (cleanup_for_task prompt timeout "t1" true (after_t1 prompt)).2).1
    = Returned 0.
Proof.
  apply (get_or_create_for_task_after_cleanup prompt timeout t1 "w1" true
           (after_t1 prompt) 0); [reflexivity|done|reflexivity].
Defined.

Lemma close_interrupted_witness :
  pages (close hung (after_t1 hung)).2 = [("t1", 0); ("w1", 0)].
Proof.
  apply (close_interrupted hung (after_t1 hung)). by vm_compute.
Defined.

Lemma cleanup_for_workflow_run_absent_witness :
  ∃ st',
    cleanup_for_workflow_run prompt "w9" ["t1"] true (after_t1 prompt)
      = (Returned None, st') ∧
    pages st' = [("w1", 0)].
Proof.
  eexists. split.
  - apply (cleanup_for_workflow_run_absent prompt "w9" ["t1"] true
             (after_t1 prompt)). reflexivity.
  - reflexivity.
Defined.

Lemma cleanup_for_workflow_run_interrupted_witness :
  pages (cleanup_for_workflow_run hung "w1" ["t1"] true (after_t1 hung)).2
    = [("t1", 0)].
Proof.
  apply (cleanup_for_workflow_run_interrupted hung "w1" ["t1"] true
           (after_t1 hung)).
  intros x. by vm_compute.
Defined.

Lemma registry_kept_without_await_witness :
  pages (run_op prompt timeout (GetVideoArtifacts one_file 0) recording_read)
    = [("t1", 0); ("w1", 0)] ∧
  clock (run_op prompt timeout (GetVideoArtifacts one_file 0) recording_read)
    = 3.
Proof.
  destruct (registry_kept_without_await prompt timeout
              (GetVideoArtifacts one_file 0) recording_read eq_refl)
    as (Hp & Hc & _).
  split; [exact Hp|exact Hc].
Defined.

Lemma get_or_create_for_task_creates_witness :
  ∃ st',
    get_or_create_for_task prompt t1 initial = (Returned 0, st') ∧
    pages st' = [("t1", 0); ("w1", 0)].
Proof.
  destruct (get_or_create_for_task_creates prompt t1 initial
              prompt_creates_promptly eq_refl eq_refl)
    as (st' & bs & Hrun & _ & _ & Hp & _).
  by exists st'.
Defined.

Lemma get_or_create_for_workflow_run_creates_witness :
  ∃ st',
    get_or_create_for_workflow_run prompt w1 None initial
      = (Returned 0, st') ∧
    pages st' = [("w1", 0)].
Proof.
  destruct (get_or_create_for_workflow_run_creates prompt w1 None initial
              prompt_creates_promptly eq_refl)
    as (st' & bs & Hrun & _ & _ & Hp & _).
  by exists st'.
Defined.

Lemma get_or_create_interrupted_witness :
  pages (get_or_create_for_task single_page (task "t3" "w3")
           (after_t1 single_page)).2
    = [("t1", 0); ("w1", 0)] ∧
  length (heap (get_or_create_for_task single_page (task "t3" "w3")
                  (after_t1 single_page)).2) = 2 ∧
  fan_in 1
    (pages (get_or_create_for_task single_page (task "t3" "w3")
              (after_t1 single_page)).2) = 0.
Proof.
  destruct (get_or_create_interrupted single_page timeout
              (after_t1 single_page) (reachable_after_t1 single_page))
    as [Htask _].
  destruct (Htask (task "t3" "w3")) as (Hp & _ & Hfresh).
  { intros r. by vm_compute. }
  split; [exact Hp|]. split; [reflexivity|exact Hfresh].
Defined.

Lemma registered_sessions_have_pages_witness :
  ∃ bs, heap shared_by_two !! 0 = Some bs ∧ page bs ≠ None.
Proof.
  apply (registered_sessions_have_pages prompt timeout shared_by_two "t2" 0);
    [|reflexivity].
  do 2 apply reachable_step. apply reachable_run_started.
Defined.


Lemma retrieve_twice_witness :
  (get_video_artifacts one_file 0
     (get_video_artifacts one_file 0 recording_read).2).1
    = (get_video_artifacts one_file 0 recording_read).1.
Proof.
  apply (retrieve_twice one_file 0 recording_read
           (with_video_artifacts
              [mkVideoArtifact (Some "/videos/a.webm") (Some [x01; x02])]
              session) eq_refl).
  repeat constructor; intros p; vm_compute; by intros [= <-].
Defined.

Lemma get_har_data_reads_file_witness :
  get_har_data har_file (Some 0) (after_t1 capturing)
    = (Returned [x7b; x7d], after_t1 capturing).
Proof.
  apply (get_har_data_reads_file har_file 0 (after_t1 capturing) captured
           "/har/t1.har" [x7b; x7d]); reflexivity.
Defined.

End MoreRuns.
